(** * pymelcloudhome: a shallow embedding of the client and the
    authentication service.

    [MelCloudHomeClient] ([src/pymelcloudhome/client.py]) is modelled as a
    state-and-error monad over the client's attributes and a world that
    holds what the client shares with the outside: the Python object heap of
    the parsed devices (so that in-place mutation and aliasing are visible),
    the clock, the scripted HTTP responses, the request log, the cookie jar
    and the set of closed sessions.

    [AuthenticationService] ([src/pymelcloudhome/services/authentication.py])
    is modelled in its own module, over its own state. *)

From Stdlib Require Import ZArith String List.
From stdpp Require Import base gmap list.

Import ListNotations.
Set Warnings "-register-all".
Open Scope Z_scope.

(* ------------------------------------------------------------------ *)
(** ** Data model ([models/device.py], [models/building.py]) *)

Record Setting := mkSetting { setting_name : string; setting_value : string }.

(** The fields of [Device] that the client touches; [device_type] is
    [Optional[str] = None] in the pydantic model. *)
Record Device := mkDevice {
  id : string;
  device_type : option string;
  given_display_name : string;
  settings : list Setting;
  is_connected : bool;
  is_in_error : bool
}.

(** [unit.device_type = ty]: the only field assignment the client does. *)
Definition set_device_type (ty : option string) (d : Device) : Device :=
  {| id := id d; device_type := ty; given_display_name := given_display_name d;
     settings := settings d; is_connected := is_connected d;
     is_in_error := is_in_error d |}.

(** A building, parametric in how a unit is held: [Building Device] is the
    wire document, [Building loc] the parsed object graph whose units are
    references into the heap. *)
Record Building (U : Type) := mkBuilding {
  building_id : string;
  building_name : string;
  timezone : string;
  air_to_air_units : list U;
  air_to_water_units : list U
}.
Arguments mkBuilding {U}.
Arguments building_id {U}. Arguments building_name {U}. Arguments timezone {U}.
Arguments air_to_air_units {U}. Arguments air_to_water_units {U}.

Record UserProfile (U : Type) := mkUserProfile {
  profile_id : string;
  email : string;
  buildings : list (Building U)
}.
Arguments mkUserProfile {U}.
Arguments profile_id {U}. Arguments email {U}. Arguments buildings {U}.

(** JSON values exchanged with the server. *)
Inductive Json :=
| JNull
| JBool (b : bool)
| JNum (z : Z)
| JStr (s : string)
| JArr (l : list Json)
| JObj (l : list (string * Json)).

(** Values read from a browser cookie dictionary ([cookie.get(...)]). *)
Inductive pyval := PNone | PStr (s : string) | PInt (z : Z).

Record Cookie := mkCookie {
  cookie_domain : option string;
  cookie_name : pyval;
  cookie_value : pyval
}.

(** The body of a response as [response.json()] meets it: a JSON
    document, a blank body, text that does not decode as JSON, or a body
    whose reading fails on the connection. *)
Inductive RawBody :=
| BodyJson (j : Json)
| BodyEmpty
| BodyInvalid (text : string)
| BodyUnreadable.

(** [json_content_type]: whether the Content-Type header passes aiohttp's
    check for [response.json()], the pattern
    [^application/(?:[\w.+-]+?\+)?json]. *)
Record Response := mkResponse {
  status : Z;
  json_content_type : bool;
  raw_body : RawBody
}.

(** A response carrying a JSON document with a JSON content type. *)
Definition json_response (s : Z) (j : Json) : Response := mkResponse s true (BodyJson j).

Record Request := mkRequest { method : string; path : string; req_json : option Json }.

(** Exceptions the client code raises or lets propagate. *)
Inductive exn :=
| ClientResponseError (code : Z)  (** [response.raise_for_status()] *)
| ClientConnectionError           (** transport failure *)
| ValidationError                 (** [UserProfile.model_validate] *)
| ValueError (msg : string)
| ConnectionError (msg : string)
| BrowserError (msg : string)     (** an exception of the browser driver *)
| LoginError (msg : string)
| ClientPayloadError              (** reading a response body failed *)
| ContentTypeError (code : Z)     (** [response.json()] on a non-JSON type *)
| JSONDecodeError                 (** [response.json()] on a non-JSON body *)
| CookieError (msg : string)      (** [http.cookies] rejecting a name *)
| AttributeError (msg : string)
(** the remaining classes of [pymelcloudhome.errors], which [client.py]
    never raises *)
| ApiError (code : option Z) (msg : string)
| DeviceNotFound (msg : string).

Inductive res (A : Type) := Ok (a : A) | Err (e : exn).
Arguments Ok {A}. Arguments Err {A}.

(** aiohttp's [ClientResponse.json()]: the body is read, the content type
    checked, a blank body gives [None], any other body is decoded. *)
Definition decode_body (r : Response) : res Json :=
  match raw_body r with
  | BodyUnreadable => Err ClientPayloadError
  | b =>
      if json_content_type r then
        match b with
        | BodyJson j => Ok j
        | BodyEmpty => Ok JNull
        | _ => Err JSONDecodeError
        end
      else Err (ContentTypeError (status r))
  end.

(* ------------------------------------------------------------------ *)
(** ** Configuration constants *)

(** [timedelta(minutes=5)], in microseconds (the resolution of [datetime]). *)
Definition cache_ttl : Z := 5 * 60 * 1000000.
(** [page.wait_for_url("**/dashboard", timeout=30000)] and
    [LOGIN_TIMEOUT_MILLISECONDS]. *)
Definition LOGIN_TIMEOUT_MILLISECONDS : Z := 30000.
Definition DASHBOARD_URL_PATTERN : string := "**/dashboard".
Definition DEVICE_TYPE_AIR_TO_AIR : string := "ataunit".
Definition DEVICE_TYPE_AIR_TO_WATER : string := "atwunit".
Definition ENDPOINT_USER_CONTEXT : string := "user/context".

(** Python's [needle in hay] on strings. *)
Fixpoint str_contains (needle hay : string) : bool :=
  match hay with
  | EmptyString => String.eqb needle EmptyString
  | String _ rest => String.prefix needle hay || str_contains needle rest
  end.

(* ------------------------------------------------------------------ *)
(** ** The client's state and its world *)

(** The attributes set in [MelCloudHomeClient.__init__]. Sessions are
    handles; [user_profile] holds the parsed profile whose units are
    references into the heap. *)
Record Client := mkClient {
  session : nat;
  managed_session : bool;
  user_profile : option (UserProfile nat);
  last_updated : option Z
}.

(** What the client shares with the outside world. [script] is the queue of
    responses the server will give, [log] every request sent, in order. *)
Record World := mkWorld {
  heap : gmap nat Device;
  next_loc : nat;
  now : Z;
  script : list Response;
  log : list Request;
  cookie_jar : list (string * pyval * pyval);
  next_session : nat;
  closed_sessions : list nat
}.

Record St := mkSt { cl : Client; wd : World }.

Definition with_profile (p : option (UserProfile nat)) (t : option Z) (c : Client) : Client :=
  mkClient (session c) (managed_session c) p t.
Definition with_last_updated (t : option Z) (c : Client) : Client :=
  mkClient (session c) (managed_session c) (user_profile c) t.

Definition with_heap (h : gmap nat Device) (n : nat) (w : World) : World :=
  mkWorld h n (now w) (script w) (log w) (cookie_jar w) (next_session w) (closed_sessions w).
Definition with_io (s : list Response) (l : list Request) (w : World) : World :=
  mkWorld (heap w) (next_loc w) (now w) s l (cookie_jar w) (next_session w) (closed_sessions w).
Definition with_jar (j : list (string * pyval * pyval)) (w : World) : World :=
  mkWorld (heap w) (next_loc w) (now w) (script w) (log w) j (next_session w) (closed_sessions w).
Definition with_sessions (n : nat) (cs : list nat) (w : World) : World :=
  mkWorld (heap w) (next_loc w) (now w) (script w) (log w) (cookie_jar w) n cs.

(* ------------------------------------------------------------------ *)
(** ** A state-and-exception monad for [async] methods *)

(** A state-and-exception monad, generic in the state; [M] is the client's. *)
Definition SM (S A : Type) : Type := S -> res A * S.
Definition M (A : Type) : Type := SM St A.

Definition ret {S A} (a : A) : SM S A := fun st => (Ok a, st).
Definition raise {S A} (e : exn) : SM S A := fun st => (Err e, st).
Definition bind {S A B} (m : SM S A) (k : A -> SM S B) : SM S B :=
  fun st => match m st with
            | (Ok a, st') => k a st'
            | (Err e, st') => (Err e, st')
            end.

(** [try: m finally: k] *)
Definition try_finally {S A} (m : SM S A) (k : SM S unit) : SM S A :=
  fun st => match m st with
            | (r, st') =>
                match k st' with
                | (Ok _, st'') => (r, st'')
                | (Err e, st'') => (Err e, st'')
                end
            end.

Declare Scope py_scope.
Delimit Scope py_scope with py.
Notation "x <- m ;; k" := (bind m (fun x => k))
  (at level 100, m at next level, right associativity) : py_scope.
Notation "m ;;; k" := (bind m (fun _ => k))
  (at level 100, right associativity) : py_scope.
Local Open Scope py_scope.

Definition get_client : M Client := fun st => (Ok (cl st), st).
Definition get_world : M World := fun st => (Ok (wd st), st).
Definition modify_client (f : Client -> Client) : M unit :=
  fun st => (Ok tt, mkSt (f (cl st)) (wd st)).
Definition modify_world (f : World -> World) : M unit :=
  fun st => (Ok tt, mkSt (cl st) (f (wd st))).

(** [datetime.now()] *)
Definition datetime_now : M Z := fun st => (Ok (now (wd st)), st).

(** One HTTP exchange of the aiohttp session: the request is logged and the
    next scripted response is returned; an exhausted script is a transport
    failure. *)
Definition http_request (meth p : string) (j : option Json) : M Response :=
  fun st =>
    let w := wd st in
    let l' := log w ++ [mkRequest meth p j] in
    match script w with
    | [] => (Err ClientConnectionError, mkSt (cl st) (with_io [] l' w))
    | r :: rest => (Ok r, mkSt (cl st) (with_io rest l' w))
    end.

(** aiohttp's [raise_for_status]: raises iff [not response.ok], i.e. the
    status is 400 or more. *)
Definition raise_for_status (r : Response) : M unit :=
  if (status r <? 400)%Z then ret tt else raise (ClientResponseError (status r)).

(** [await response.json()] *)
Definition response_json (r : Response) : M Json := fun st => (decode_body r, st).

(** A call into the browser driver that raises [BrowserError m] when the
    run says it fails with [m]. *)
Definition browser_step {S} (o : option string) : SM S unit :=
  match o with Some m => raise (BrowserError m) | None => ret tt end.

(** Allocation of a fresh Python object in the heap. *)
Definition alloc (d : Device) : M nat :=
  fun st =>
    let w := wd st in
    let l := next_loc w in
    (Ok l, mkSt (cl st) (with_heap (<[l := d]> (heap w)) (S l) w)).

Fixpoint alloc_units (ds : list Device) : M (list nat) :=
  match ds with
  | [] => ret []
  | d :: rest => l <- alloc d ;; ls <- alloc_units rest ;; ret (l :: ls)
  end.

Definition alloc_building (b : Building Device) : M (Building nat) :=
  a2a <- alloc_units (air_to_air_units b) ;;
  a2w <- alloc_units (air_to_water_units b) ;;
  ret (mkBuilding (building_id b) (building_name b) (timezone b) a2a a2w).

Fixpoint alloc_buildings (bs : list (Building Device)) : M (list (Building nat)) :=
  match bs with
  | [] => ret []
  | b :: rest => b' <- alloc_building b ;; bs' <- alloc_buildings rest ;; ret (b' :: bs')
  end.

(** The object graph [UserProfile.model_validate] builds from a validated
    wire document: every unit is a fresh object. *)
Definition alloc_profile (p : UserProfile Device) : M (UserProfile nat) :=
  bs <- alloc_buildings (buildings p) ;;
  ret (mkUserProfile (profile_id p) (email p) bs).

(** Every reference held by a parsed profile, in walk order. *)
Definition building_units (b : Building nat) : list nat :=
  air_to_air_units b ++ air_to_water_units b.
Definition profile_units (p : UserProfile nat) : list nat :=
  concat (map building_units (buildings p)).

(* ------------------------------------------------------------------ *)
(** ** [MelCloudHomeClient] ([client.py]) *)

(** How [URL(f"https://{domain}")] followed by the session cookie jar's
    [update_cookies({name: value}, response_url=...)] answers one cookie,
    given the jar's entries: the new entries, or the exception raised (a
    [CookieError] for a name [http.cookies] refuses, for instance). This is
    aiohttp's code, outside the repository; it is a parameter of each run. *)
Definition JarUpdate (N V : Type) : Type :=
  string -> N -> V -> list (string * N * V) -> res (list (string * N * V)).

(** [cookie.get('domain', '')] *)
Definition domain_or_empty (c : Cookie) : string :=
  match cookie_domain c with Some d => d | None => ""%string end.

(** What the browser does during one [login] call: whether starting it
    ([launch], [new_context], [new_page], [goto], [fill], [click]) raises,
    the page's URL after the wait (which [login] never reads), how
    [page.wait_for_url(pattern, timeout=...)] ends, whether
    [context.cookies()] raises and what it returns, how the session's jar
    takes each cookie, and whether [browser.close()] and leaving
    [async with async_playwright()] raise. *)
Inductive WaitResult := WaitOk | WaitTimeout (msg : string).

Record PageRun := mkPageRun {
  page_steps : option string;
  page_url : string;
  wait_for_url : string -> Z -> WaitResult;
  cookies_error : option string;
  context_cookies : list Cookie;
  jar_update : JarUpdate pyval pyval;
  close_error : option string;
  stop_error : option string
}.

Module Client.
Section Ops.

(** [UserProfile.model_validate]: pydantic validation of the wire document,
    an external collaborator; [None] is a validation error. *)
Variable model_validate : Json -> option (UserProfile Device).

(** [MelCloudHomeClient.__init__]: [if session:] keeps the caller's session
    and does not manage it; otherwise a new [ClientSession] is created and
    managed. *)
Definition init (s : option nat) (w : World) : St :=
  match s with
  | Some h => mkSt (mkClient h false None None) w
  | None =>
      mkSt (mkClient (next_session w) true None None)
           (with_sessions (S (next_session w)) (closed_sessions w) w)
  end.

(** [_fetch_context] (the request headers are not modelled). *)
Definition fetch_context : M unit :=
  response <- http_request "GET" ENDPOINT_USER_CONTEXT None ;;
  raise_for_status response ;;;
  j <- response_json response ;;
  match model_validate j with
  | None => raise ValidationError
  | Some wire =>
      p <- alloc_profile wire ;;
      modify_client (fun c => with_profile (Some p) (last_updated c) c) ;;;
      t <- datetime_now ;;
      modify_client (with_last_updated (Some t))
  end.

(** The guard shared by [list_devices] and [get_device_state]:
    [not self._user_profile or (self._last_updated and
     (datetime.now() - self._last_updated) > timedelta(minutes=5))]. *)
Definition needs_refresh (c : Client) (t : Z) : bool :=
  match user_profile c with
  | None => true
  | Some _ =>
      match last_updated c with
      | None => false
      | Some lu => (t - lu >? cache_ttl)%Z
      end
  end.

Definition refresh_if_needed : M unit :=
  c <- get_client ;;
  t <- datetime_now ;;
  if needs_refresh c t then fetch_context else ret tt.

(** [unit.device_type = ty]: an in-place assignment on the heap object. *)
Definition tag_unit (ty : string) (l : nat) : M unit :=
  modify_world (fun w =>
    match heap w !! l with
    | Some d => with_heap (<[l := set_device_type (Some ty) d]> (heap w)) (next_loc w) w
    | None => w
    end).

(** [for unit in units: unit.device_type = ty; devices.append(unit)] *)
Fixpoint tag_units (ty : string) (units devices : list nat) : M (list nat) :=
  match units with
  | [] => ret devices
  | u :: rest => tag_unit ty u ;;; tag_units ty rest (devices ++ [u])
  end.

Fixpoint walk_buildings (bs : list (Building nat)) (devices : list nat) : M (list nat) :=
  match bs with
  | [] => ret devices
  | b :: rest =>
      d1 <- tag_units DEVICE_TYPE_AIR_TO_AIR (air_to_air_units b) devices ;;
      d2 <- tag_units DEVICE_TYPE_AIR_TO_WATER (air_to_water_units b) d1 ;;
      walk_buildings rest d2
  end.

(** Lines 103-112 of [list_devices]. *)
Definition collect_devices : M (list nat) :=
  c <- get_client ;;
  match user_profile c with
  | None => ret []
  | Some p => walk_buildings (buildings p) []
  end.

Definition list_devices : M (list nat) :=
  refresh_if_needed ;;; collect_devices.

Definition not_logged_in_msg : string :=
  "User profile is not available. Please login first.".

Definition get_device_state (device_id : string) : M Json :=
  refresh_if_needed ;;;
  c <- get_client ;;
  match user_profile c with
  | None => raise (ValueError not_logged_in_msg)
  | Some _ =>
      response <- http_request "GET" ("device/" ++ device_id ++ "/state")%string None ;;
      raise_for_status response ;;;
      response_json response
  end.

Definition no_type_msg : string := "Device type is not set for this device.".

Definition set_device_state (device_id device_type : string) (state_data : Json) : M Json :=
  if String.eqb device_type ""%string then raise (ValueError no_type_msg) else
  response <- http_request "PUT" (device_type ++ "/" ++ device_id)%string (Some state_data) ;;
  raise_for_status response ;;;
  modify_client (with_last_updated None) ;;;
  response_json response.

(** [self._session.cookie_jar.update_cookies] for every browser cookie
    with a name and a value; the first exception stops the loop. *)
Fixpoint update_cookies (ju : JarUpdate pyval pyval) (cs : list Cookie) : M unit :=
  match cs with
  | [] => ret tt
  | c :: rest =>
      match cookie_name c, cookie_value c with
      | PNone, _ | _, PNone => ret tt
      | n, v =>
          fun st =>
            match ju (domain_or_empty c) n v (cookie_jar (wd st)) with
            | Ok j => (Ok tt, mkSt (cl st) (with_jar j (wd st)))
            | Err e => (Err e, st)
            end
      end ;;; update_cookies ju rest
  end.

Definition login_failed_prefix : string :=
  "Login failed. Did not redirect to dashboard. Error: ".

(** [login]: the credentials only go into the browser form; the client keeps
    no copy of them. The whole body runs inside [async with
    async_playwright()], whose exit runs however the body ends. *)
Definition login (email password : string) (run : PageRun) : M unit :=
  try_finally
    (browser_step (page_steps run) ;;;
     match wait_for_url run DASHBOARD_URL_PATTERN LOGIN_TIMEOUT_MILLISECONDS with
     | WaitTimeout e => raise (ConnectionError (login_failed_prefix ++ e)%string)
     | WaitOk =>
         browser_step (cookies_error run) ;;;
         update_cookies (jar_update run) (context_cookies run) ;;;
         browser_step (close_error run) ;;;
         fetch_context
     end)
    (browser_step (stop_error run)).

Definition close : M unit :=
  c <- get_client ;;
  if managed_session c then
    modify_world (fun w => with_sessions (next_session w) (closed_sessions w ++ [session c]) w)
  else ret tt.

(** [__aenter__] returns [self]: the client is the state itself. *)
Definition aenter : M unit := ret tt.

(** [__aexit__] awaits [close()] and returns [None], a false value, so an
    exception of the block is never suppressed. *)
Definition aexit : M unit := close.

(** [async with client: body]: [__aexit__] runs whether the block returns
    or raises, and the block's exception is then re-raised. *)
Definition async_with {A} (body : M A) : M A :=
  aenter ;;; try_finally body aexit.

(** The public operations a caller can sequence on a client; a caller may
    catch an exception and go on using the client. *)
Inductive op :=
| OpLogin (e p : string) (run : PageRun)
| OpListDevices
| OpGetDeviceState (device_id : string)
| OpSetDeviceState (device_id device_type : string) (state_data : Json)
| OpAdvanceClock (dt : Z).

Definition advance_clock (dt : Z) : M unit :=
  modify_world (fun w =>
    mkWorld (heap w) (next_loc w) (now w + dt) (script w) (log w) (cookie_jar w)
            (next_session w) (closed_sessions w)).

Definition run_op (o : op) : M unit :=
  match o with
  | OpLogin e p run => login e p run
  | OpListDevices => _ <- list_devices ;; ret tt
  | OpGetDeviceState i => _ <- get_device_state i ;; ret tt
  | OpSetDeviceState i t j => _ <- set_device_state i t j ;; ret tt
  | OpAdvanceClock dt => advance_clock dt
  end.

Fixpoint run_ops (os : list op) (st : St) : St :=
  match os with
  | [] => st
  | o :: rest => run_ops rest (snd (run_op o st))
  end.

End Ops.
End Client.

(* ------------------------------------------------------------------ *)
(** ** [AuthenticationService] ([services/authentication.py]) *)

Module Auth.

(** How [page.waitForNavigation(timeout=...)] ends. *)
Inductive NavResult := NavOk | NavException (msg : string).

(** What the browser does during one [_perform_browser_login]: whether
    [launch(...)] raises, whether a step before the navigation wait raises
    ([newPage], [setUserAgent], [goto], [waitForSelector], [type],
    [click]), how the navigation wait ends, the page's URL afterwards,
    whether [page.cookies()] raises and what it returns, how the session's
    jar takes each cookie, and whether [browser.close()] raises. *)
Record BrowserRun := mkBrowserRun {
  launch_error : option string;
  before_wait : option string;
  wait_for_navigation : Z -> NavResult;
  current_url : string;
  cookies_error : option string;
  page_cookies : list Cookie;
  jar_update : JarUpdate string string;
  close_error : option string
}.

(** The service's attributes, plus the session's cookie jar, the number of
    browsers [launch] returned and the number of [browser.close()] calls. *)
Record AuthState := mkAuthState {
  a_email : option string;
  a_password : option string;
  a_jar : list (string * string * string);
  launched : nat;
  closed : nat
}.

Definition AM (A : Type) : Type := SM AuthState A.

Definition init : AuthState := mkAuthState None None [] 0 0.

(** Python truthiness of an [str | None]. *)
Definition truthy (o : option string) : bool :=
  match o with Some s => negb (String.eqb s ""%string) | None => false end.

(** [bool(self._email and self._password)] *)
Definition can_retry_login : AM bool :=
  fun s => (Ok (truthy (a_email s) && truthy (a_password s)), s).

Definition store_credentials (e p : string) : AM unit :=
  fun s => (Ok tt, mkAuthState (Some e) (Some p) (a_jar s) (launched s) (closed s)).

(** [browser = await launch(...)] *)
Definition launch (run : BrowserRun) : AM unit :=
  match launch_error run with
  | Some m => raise (BrowserError m)
  | None =>
      fun s => (Ok tt, mkAuthState (a_email s) (a_password s) (a_jar s) (S (launched s)) (closed s))
  end.

(** [await browser.close()]: the call is made, and may raise. *)
Definition browser_close (run : BrowserRun) : AM unit :=
  fun s =>
    (match close_error run with Some m => Err (BrowserError m) | None => Ok tt end,
     mkAuthState (a_email s) (a_password s) (a_jar s) (launched s) (S (closed s))).

Definition redirected_msg (url : string) : string :=
  ("Login failed. Redirected to " ++ url ++ " instead of dashboard")%string.

(** [_wait_for_successful_login]: any exception of the navigation wait is
    logged and dropped; the URL alone decides. *)
Definition wait_for_successful_login (run : BrowserRun) : AM unit :=
  (match wait_for_navigation run LOGIN_TIMEOUT_MILLISECONDS with
   | NavOk => ret tt
   | NavException _ => ret tt
   end) ;;;
  if str_contains "/dashboard" (current_url run) then ret tt
  else raise (LoginError (redirected_msg (current_url run))).

(** The loop of [_transfer_cookies_to_session]: only [str] names and
    values go to the jar; the first exception stops the loop. *)
Fixpoint transfer_cookies (ju : JarUpdate string string) (cs : list Cookie) : AM unit :=
  match cs with
  | [] => ret tt
  | c :: rest =>
      match cookie_name c, cookie_value c with
      | PStr n, PStr v =>
          fun s =>
            match ju (domain_or_empty c) n v (a_jar s) with
            | Ok j => (Ok tt, mkAuthState (a_email s) (a_password s) j (launched s) (closed s))
            | Err e => (Err e, s)
            end
      | _, _ => ret tt
      end ;;; transfer_cookies ju rest
  end.

(** [_transfer_cookies_to_session] *)
Definition transfer_cookies_to_session (run : BrowserRun) : AM unit :=
  browser_step (cookies_error run) ;;;
  transfer_cookies (jar_update run) (page_cookies run).

(** [_perform_browser_login]: [launch] is outside the [try]. *)
Definition perform_browser_login (run : BrowserRun) : AM unit :=
  launch run ;;;
  try_finally
    (browser_step (before_wait run) ;;;
     wait_for_successful_login run ;;;
     transfer_cookies_to_session run)
    (browser_close run).

Definition login (e p : string) (run : BrowserRun) : AM unit :=
  store_credentials e p ;;; perform_browser_login run.

Definition cannot_relogin_msg : string := "Cannot re-login, credentials not stored.".

Definition retry_login (run : BrowserRun) : AM unit :=
  ok <- can_retry_login ;;
  if negb ok then raise (LoginError cannot_relogin_msg) else
  fun s =>
    match a_email s, a_password s with
    | Some e, Some p => login e p run s
    | _, _ => (Err (LoginError cannot_relogin_msg), s)  (* unreachable: [ok] *)
    end.

End Auth.

(* ------------------------------------------------------------------ *)
(** ** Pure descriptions used in the proofs *)

(** The heap after [unit.device_type = ty] on the object at [l]. *)
Definition tag_pure (ty : string) (h : gmap nat Device) (l : nat) : gmap nat Device :=
  match h !! l with
  | Some d => <[l := set_device_type (Some ty) d]> h
  | None => h
  end.

Fixpoint tag_list (ty : string) (ls : list nat) (h : gmap nat Device) : gmap nat Device :=
  match ls with
  | [] => h
  | l :: rest => tag_list ty rest (tag_pure ty h l)
  end.

Fixpoint tag_buildings (bs : list (Building nat)) (h : gmap nat Device) : gmap nat Device :=
  match bs with
  | [] => h
  | b :: rest =>
      tag_buildings rest
        (tag_list DEVICE_TYPE_AIR_TO_WATER (air_to_water_units b)
           (tag_list DEVICE_TYPE_AIR_TO_AIR (air_to_air_units b) h))
  end.

(** Feeding the browser cookies whose name and value are not [None] to
    the jar, in order, from the entries [j]: the outcome and the entries
    reached (those before the first failure, when one fails). *)
Fixpoint client_transfer (ju : JarUpdate pyval pyval) (cs : list Cookie)
    (j : list (string * pyval * pyval)) : res unit * list (string * pyval * pyval) :=
  match cs with
  | [] => (Ok tt, j)
  | c :: rest =>
      match cookie_name c, cookie_value c with
      | PNone, _ | _, PNone => client_transfer ju rest j
      | n, v =>
          match ju (domain_or_empty c) n v j with
          | Ok j' => client_transfer ju rest j'
          | Err e => (Err e, j)
          end
      end
  end.

(** The same for [_transfer_cookies_to_session], which only passes cookies
    whose name and value are both [str]. *)
Fixpoint auth_transfer (ju : JarUpdate string string) (cs : list Cookie)
    (j : list (string * string * string)) : res unit * list (string * string * string) :=
  match cs with
  | [] => (Ok tt, j)
  | c :: rest =>
      match cookie_name c, cookie_value c with
      | PStr n, PStr v =>
          match ju (domain_or_empty c) n v j with
          | Ok j' => auth_transfer ju rest j'
          | Err e => (Err e, j)
          end
      | _, _ => auth_transfer ju rest j
      end
  end.

(** [http.cookies] (CPython 3.12): [Morsel.set] refuses a key that is,
    case-insensitively, a cookie attribute, or that is empty or has a
    character outside [_LegalChars]; a key that is not a [str] fails on
    [key.lower()]. *)
Definition cookie_reserved : list string :=
  ["expires"; "path"; "comment"; "domain"; "max-age"; "secure"; "httponly";
   "version"; "samesite"]%string.

Definition ascii_lower (a : Ascii.ascii) : Ascii.ascii :=
  let n := Ascii.nat_of_ascii a in
  if (65 <=? n)%nat && (n <=? 90)%nat then Ascii.ascii_of_nat (n + 32) else a.

Fixpoint string_lower (s : string) : string :=
  match s with
  | EmptyString => EmptyString
  | String a rest => String (ascii_lower a) (string_lower rest)
  end.

Fixpoint string_all (f : Ascii.ascii -> bool) (s : string) : bool :=
  match s with
  | EmptyString => true
  | String a rest => f a && string_all f rest
  end.

Definition legal_cookie_char (a : Ascii.ascii) : bool :=
  let n := Ascii.nat_of_ascii a in
  ((48 <=? n)%nat && (n <=? 57)%nat) || ((65 <=? n)%nat && (n <=? 90)%nat) ||
  ((97 <=? n)%nat && (n <=? 122)%nat) || str_contains (String a EmptyString) "!#$%&'*+-.^_`|~:".

Definition cookie_key_error (k : pyval) : option exn :=
  match k with
  | PStr s =>
      if existsb (String.eqb (string_lower s)) cookie_reserved
      then Some (CookieError ("Attempt to set a reserved key " ++ s)%string)
      else if String.eqb s ""%string || negb (string_all legal_cookie_char s)
      then Some (CookieError ("Illegal key " ++ s)%string)
      else None
  | _ => Some (AttributeError "object has no attribute 'lower'")
  end.

(** A jar that refuses what [http.cookies] refuses and otherwise records
    the cookie after the entries it holds. *)
Definition sample_jar : JarUpdate pyval pyval :=
  fun dom n v j =>
    match cookie_key_error n with
    | Some e => Err e
    | None => Ok (j ++ [(dom, n, v)])
    end.
Definition sample_auth_jar : JarUpdate string string :=
  fun dom n v j =>
    match cookie_key_error (PStr n) with
    | Some e => Err e
    | None => Ok (j ++ [(dom, n, v)])
    end.

(** A browser that hands over a session cookie, a cookie without a name,
    one with an integer value and one named like a cookie attribute. *)
Definition mixed_cookies : list Cookie :=
  [mkCookie (Some "melcloudhome.com"%string) (PStr "session") (PStr "abc");
   mkCookie None PNone (PStr "orphan");
   mkCookie (Some "melcloudhome.com"%string) (PStr "visits") (PInt 3);
   mkCookie (Some "melcloudhome.com"%string) (PStr "Path") (PStr "/")].
Definition page_run_cookies : PageRun :=
  mkPageRun None "https://www.melcloudhome.com/dashboard" (fun _ _ => WaitOk)
    None (firstn 3 mixed_cookies) sample_jar None None.
Definition page_run_bad_cookie : PageRun :=
  mkPageRun None "https://www.melcloudhome.com/dashboard" (fun _ _ => WaitOk)
    None mixed_cookies sample_jar None None.

(** No object at or beyond [next_loc]: allocation is fresh. *)
Definition heap_fresh (w : World) : Prop :=
  forall l, (next_loc w <= l)%nat -> heap w !! l = None.

(** A parsed profile never shares a unit object between two slots, and each
    of its units is a live object. *)
Definition profile_ok (w : World) (p : UserProfile nat) : Prop :=
  NoDup (profile_units p) /\ forall l, In l (profile_units p) -> is_Some (heap w !! l).

Definition client_inv (st : St) : Prop :=
  heap_fresh (wd st) /\
  forall p, user_profile (cl st) = Some p -> profile_ok (wd st) p.

(** The request [_fetch_context] sends. *)
Definition context_request : Request := mkRequest "GET" ENDPOINT_USER_CONTEXT None.

(** [m] leaves the client's session handle and its ownership flag alone. *)
Definition keeps_session {A} (m : M A) : Prop :=
  forall st, session (cl (snd (m st))) = session (cl st) /\
             managed_session (cl (snd (m st))) = managed_session (cl st).

(** [m] closes no session. *)
Definition closes_nothing {A} (m : M A) : Prop :=
  forall st, closed_sessions (wd (snd (m st))) = closed_sessions (wd st).

(** A world holding no objects, no responses and no session yet. *)
Definition empty_world : World := mkWorld ∅ 0 0 [] [] [] 0 [].

(** A browser run that lands on the dashboard. *)
Definition dashboard_run : Auth.BrowserRun :=
  Auth.mkBrowserRun None None (fun _ => Auth.NavOk) "https://www.melcloudhome.com/dashboard"
    None [] sample_auth_jar None.

(** What an allocation run from [st] to [st'] producing the references
    [ls] guarantees: fresh, distinct, live objects, old objects untouched. *)
Definition alloc_range (st st' : St) (ls : list nat) : Prop :=
  heap_fresh (wd st') /\ NoDup ls /\
  (forall l, In l ls ->
     (next_loc (wd st) <= l < next_loc (wd st'))%nat /\ is_Some (heap (wd st') !! l)) /\
  (forall l, (l < next_loc (wd st))%nat -> heap (wd st') !! l = heap (wd st) !! l) /\
  (next_loc (wd st) <= next_loc (wd st'))%nat.

(** A sample account: one building with one air-to-air and one
    air-to-water unit, as the server would describe it, and a validator
    that accepts exactly that document. *)
Definition ata_unit : Device := mkDevice "ata-device-id" None "ATA Unit" [] true false.
Definition atw_unit : Device :=
  mkDevice "atw-device-id" None "ATW Unit" [mkSetting "Power" "True"] true false.
Definition sample_wire : UserProfile Device :=
  mkUserProfile "user-id" "test@example.com"
    [mkBuilding "building-id" "Test Building" "UTC" [ata_unit] [atw_unit]].
Definition sample_context : Json := JStr "user-context".
Definition sample_validate (j : Json) : option (UserProfile Device) :=
  match j with
  | JStr "user-context" => Some sample_wire
  | _ => None
  end.

(** A server that answers the next request with the sample account. *)
Definition login_world : World :=
  mkWorld ∅ 0 0 [json_response 200 sample_context] [] [] 0 [].

(** A server whose session expires after the login: the context fetch at
    login succeeds, the next one is refused with 401, and a further one
    would succeed again. *)
Definition expiry_world : World :=
  mkWorld ∅ 0 0 [json_response 200 sample_context; json_response 401 (JStr "Unauthorized");
                 json_response 200 sample_context] [] [] 0 [].

(** A server that answers two context fetches with the sample account. *)
Definition refetch_world : World :=
  mkWorld ∅ 0 0 [json_response 200 sample_context; json_response 200 sample_context] [] [] 0 [].

Definition write_payload : Json := JObj [("Power"%string, JStr "False")].
Definition write_ack : Json := JObj [("status"%string, JStr "ok")].

(** A server that accepts a login, a write, and would answer a re-fetch. *)
Definition write_world : World :=
  mkWorld ∅ 0 0 [json_response 200 sample_context; json_response 200 write_ack;
                 json_response 200 sample_context] [] [] 0 [].

Definition state_body : Json := JObj [("Power"%string, JStr "True")].

(** A server that answers a context fetch and then a state read. *)
Definition state_world : World :=
  mkWorld ∅ 0 0 [json_response 200 sample_context; json_response 200 state_body] [] [] 0 [].

(** A client whose cached profile is more than five minutes old. *)
Definition stale_state : St :=
  mkSt (mkClient 0 true (Some (mkUserProfile "user-id" "test@example.com" [])) (Some 0))
       (mkWorld ∅ 0 (cache_ttl + 1) [json_response 401 (JStr "Unauthorized")] [] [] 1 []).

(** A client whose write is answered 200 with an HTML error page. *)
Definition html_state : St :=
  mkSt (mkClient 0 true (Some (mkUserProfile "user-id" "test@example.com" [])) (Some 0))
       (mkWorld ∅ 0 0 [mkResponse 200 false (BodyInvalid "<html>Service Unavailable</html>")]
                [] [] 1 []).

(** A client whose cached profile was just fetched, facing a state read. *)
Definition fresh_state : St :=
  mkSt (mkClient 0 true (Some (mkUserProfile "user-id" "test@example.com" [])) (Some 0))
       (mkWorld ∅ 0 0 [json_response 200 state_body] [] [] 1 []).


(** Browser runs of [MelCloudHomeClient.login]. *)
Definition page_run_ok : PageRun :=
  mkPageRun None "https://www.melcloudhome.com/dashboard" (fun _ _ => WaitOk)
    None [] sample_jar None None.

(** The request [get_device_state] sends after its guard. *)
Definition state_request (device_id : string) : Request :=
  mkRequest "GET" ("device/" ++ device_id ++ "/state")%string None.

(* ================================================================== *)
(** * Proofs *)

Lemma bind_inv {S A B} (m : SM S A) (k : A -> SM S B) st r st' :
  bind m k st = (r, st') ->
  (exists a s1, m st = (Ok a, s1) /\ k a s1 = (r, st')) \/
  (exists e, m st = (Err e, st') /\ r = Err e).
Proof.
  unfold bind. destruct (m st) as [[a|e] s1] eqn:Hm; intros H.
  - left. eauto.
  - right. inversion H; subst. eauto.
Qed.

Lemma bind_ok {S A B} (m : SM S A) (k : A -> SM S B) st a s1 :
  m st = (Ok a, s1) -> bind m k st = k a s1.
Proof. unfold bind. intros ->. reflexivity. Qed.

Lemma bind_err {S A B} (m : SM S A) (k : A -> SM S B) st e s1 :
  m st = (Err e, s1) -> bind m k st = (Err e, s1).
Proof. unfold bind. intros ->. reflexivity. Qed.

(** ** Frame: the session handle and its ownership never change *)

Create HintDb keeps.

Lemma keeps_ret {A} (a : A) : keeps_session (ret a).
Proof. intros st. split; reflexivity. Qed.
Lemma keeps_raise {A} e : keeps_session (A:=A) (raise e).
Proof. intros st. split; reflexivity. Qed.
Lemma keeps_bind {A B} (m : M A) (k : A -> M B) :
  keeps_session m -> (forall a, keeps_session (k a)) -> keeps_session (bind m k).
Proof.
  intros Hm Hk st. unfold bind. specialize (Hm st).
  destruct (m st) as [[a|e] s1]; simpl in *.
  - destruct Hm, (Hk a s1). split; congruence.
  - exact Hm.
Qed.
Lemma keeps_get_client : keeps_session get_client.
Proof. intros st. split; reflexivity. Qed.
Lemma keeps_datetime_now : keeps_session datetime_now.
Proof. intros st. split; reflexivity. Qed.
Lemma keeps_modify_world f : keeps_session (modify_world f).
Proof. intros st. split; reflexivity. Qed.
Lemma keeps_modify_client f :
  (forall c, session (f c) = session c /\ managed_session (f c) = managed_session c) ->
  keeps_session (modify_client f).
Proof. intros Hf st. apply Hf. Qed.
Lemma keeps_http_request m p j : keeps_session (http_request m p j).
Proof. intros st. unfold http_request. destruct (script (wd st)); split; reflexivity. Qed.
Lemma keeps_raise_for_status r : keeps_session (raise_for_status r).
Proof. unfold raise_for_status. destruct (_ <? _)%Z; auto using keeps_ret, keeps_raise. Qed.
Lemma keeps_alloc d : keeps_session (alloc d).
Proof. intros st. split; reflexivity. Qed.
Lemma keeps_response_json r : keeps_session (response_json r).
Proof. intros st. split; reflexivity. Qed.
Lemma keeps_browser_step o : keeps_session (browser_step (S:=St) o).
Proof. destruct o; [apply keeps_raise|apply keeps_ret]. Qed.
Lemma keeps_try_finally {A} (m : M A) (k : M unit) :
  keeps_session m -> keeps_session k -> keeps_session (try_finally m k).
Proof.
  intros Hm Hk st. unfold try_finally. specialize (Hm st).
  destruct (m st) as [r s1]. specialize (Hk s1).
  destruct (k s1) as [[u|e] s2]; cbn in *; destruct Hm, Hk; split; congruence.
Qed.

#[local] Hint Resolve keeps_ret keeps_raise keeps_get_client keeps_datetime_now
  keeps_modify_world keeps_http_request keeps_raise_for_status keeps_alloc
  keeps_response_json keeps_browser_step : keeps.

Ltac keeps_tac :=
  repeat first
    [ apply keeps_bind; [| intros ?; cbv beta]
    | apply keeps_try_finally
    | apply keeps_modify_client; intros ?; split; reflexivity
    | match goal with
      | |- keeps_session (if ?b then _ else _) => destruct b
      | |- keeps_session (match ?x with _ => _ end) => destruct x
      end
    | solve [eauto with keeps] ].

Lemma keeps_alloc_units ds : keeps_session (alloc_units ds).
Proof. induction ds; simpl; keeps_tac. Qed.
#[local] Hint Resolve keeps_alloc_units : keeps.

Lemma keeps_alloc_buildings bs : keeps_session (alloc_buildings bs).
Proof. induction bs; simpl; [keeps_tac|]. unfold alloc_building. keeps_tac. Qed.
#[local] Hint Resolve keeps_alloc_buildings : keeps.

Lemma keeps_fetch_context mv : keeps_session (Client.fetch_context mv).
Proof. unfold Client.fetch_context, alloc_profile. keeps_tac. Qed.
#[local] Hint Resolve keeps_fetch_context : keeps.

Lemma keeps_refresh mv : keeps_session (Client.refresh_if_needed mv).
Proof. unfold Client.refresh_if_needed. keeps_tac. Qed.
#[local] Hint Resolve keeps_refresh : keeps.

Lemma keeps_tag_units ty us ds : keeps_session (Client.tag_units ty us ds).
Proof. revert ds; induction us; intros; simpl; unfold Client.tag_unit; keeps_tac. Qed.
#[local] Hint Resolve keeps_tag_units : keeps.

Lemma keeps_walk_buildings bs ds : keeps_session (Client.walk_buildings bs ds).
Proof. revert ds; induction bs; intros; simpl; keeps_tac. Qed.
#[local] Hint Resolve keeps_walk_buildings : keeps.

Lemma keeps_update_cookies ju cs : keeps_session (Client.update_cookies ju cs).
Proof.
  induction cs as [|c cs IH]; simpl; [keeps_tac|].
  apply keeps_bind; [|intros _; exact IH].
  destruct (cookie_name c), (cookie_value c); try apply keeps_ret;
    intros st; cbn; (destruct (ju _ _ _ _); split; reflexivity).
Qed.
#[local] Hint Resolve keeps_update_cookies : keeps.

Lemma keeps_run_op mv o : keeps_session (Client.run_op mv o).
Proof.
  destruct o; simpl;
    unfold Client.login, Client.list_devices, Client.collect_devices,
      Client.get_device_state, Client.set_device_state, Client.advance_clock;
    keeps_tac.
Qed.

Lemma run_ops_keeps mv os st :
  session (cl (Client.run_ops mv os st)) = session (cl st) /\
  managed_session (cl (Client.run_ops mv os st)) = managed_session (cl st).
Proof.
  revert st; induction os as [|o os IH]; intros st; cbn [Client.run_ops]; [split; reflexivity|].
  destruct (IH (snd (Client.run_op mv o st))) as [H1 H2].
  destruct (keeps_run_op mv o st) as [H3 H4]. split; congruence.
Qed.

Lemma close_eq st :
  Client.close st =
    if managed_session (cl st)
    then (Ok tt, mkSt (cl st) (with_sessions (next_session (wd st))
                                 (closed_sessions (wd st) ++ [session (cl st)]) (wd st)))
    else (Ok tt, st).
Proof. unfold Client.close, bind, get_client. destruct (managed_session (cl st)); reflexivity. Qed.

(** C9: [close()] closes the session only when the client created it. A
    client built on a caller's session, after any sequence of public calls
    (failed ones included), has [close()] change nothing at all: the
    caller's session is not closed and no other state moves. A client that
    created its own session closes exactly that session. *)
Theorem close_only_managed_session :
  (forall mv h w os,
     let st := Client.run_ops mv os (Client.init (Some h) w) in
     session (cl st) = h /\ managed_session (cl st) = false /\
     Client.close st = (Ok tt, st)) /\
  (forall mv w os,
     let st := Client.run_ops mv os (Client.init None w) in
     session (cl st) = next_session w /\ managed_session (cl st) = true /\
     Client.close st =
       (Ok tt, mkSt (cl st) (with_sessions (next_session (wd st))
                               (closed_sessions (wd st) ++ [session (cl st)]) (wd st)))).
Proof.
  split.
  - intros mv h w os. cbv zeta.
    destruct (run_ops_keeps mv os (Client.init (Some h) w)) as [Hs Hm].
 split; [exact Hs|]. split; [exact Hm|].
    rewrite close_eq, Hm. reflexivity.
  - intros mv w os. cbv zeta.
    destruct (run_ops_keeps mv os (Client.init None w)) as [Hs Hm].
 split; [exact Hs|]. split; [exact Hm|].
    rewrite close_eq, Hm. reflexivity.
Qed.

(** C5 (code_bug): [set_device_state] with an empty device type raises
    [ValueError("Device type is not set for this device.")] before any HTTP
    call: the world, hence the request log, is untouched. The error is the
    builtin [ValueError], not a device-not-found error. *)
Theorem set_device_state_empty_type : forall device_id state_data st,
  Client.set_device_state device_id ""%string state_data st =
    (Err (ValueError Client.no_type_msg), st).
Proof. intros. reflexivity. Qed.

(** ** The authentication service *)

Lemma transfer_cookies_eq ju cs s :
  Auth.transfer_cookies ju cs s =
    (fst (auth_transfer ju cs (Auth.a_jar s)),
     Auth.mkAuthState (Auth.a_email s) (Auth.a_password s)
       (snd (auth_transfer ju cs (Auth.a_jar s))) (Auth.launched s) (Auth.closed s)).
Proof.
  revert s; induction cs as [|c cs IH]; intros s; cbn [Auth.transfer_cookies auth_transfer].
  - destruct s; reflexivity.
  - unfold bind at 1.
    destruct (cookie_name c), (cookie_value c); cbn -[Auth.transfer_cookies auth_transfer];
      try (rewrite IH; reflexivity).
    destruct (ju _ _ _ _) as [j|e]; cbn -[Auth.transfer_cookies auth_transfer];
      [rewrite IH; reflexivity|destruct s; reflexivity].
Qed.

(** [_perform_browser_login], step by step: what the steps inside the
    [try] give (result and jar), then [browser.close()]. *)
Lemma perform_browser_login_eq run s :
  Auth.perform_browser_login run s =
    match Auth.launch_error run with
    | Some m => (Err (BrowserError m), s)
    | None =>
        let body :=
          match Auth.before_wait run with
          | Some m => (Err (BrowserError m), Auth.a_jar s)
          | None =>
              if str_contains "/dashboard" (Auth.current_url run) then
                match Auth.cookies_error run with
                | Some m => (Err (BrowserError m), Auth.a_jar s)
                | None => auth_transfer (Auth.jar_update run) (Auth.page_cookies run) (Auth.a_jar s)
                end
              else (Err (LoginError (Auth.redirected_msg (Auth.current_url run))), Auth.a_jar s)
          end in
        (match Auth.close_error run with Some m => Err (BrowserError m) | None => fst body end,
         Auth.mkAuthState (Auth.a_email s) (Auth.a_password s) (snd body)
           (S (Auth.launched s)) (S (Auth.closed s)))
    end.
Proof.
  unfold Auth.perform_browser_login, Auth.launch.
  destruct (Auth.launch_error run) as [m|]; [reflexivity|].
  cbv [bind try_finally browser_step ret raise Auth.browser_close
       Auth.wait_for_successful_login Auth.transfer_cookies_to_session].
  destruct (Auth.before_wait run) as [m|]; [destruct (Auth.close_error run); reflexivity|].
  destruct (Auth.wait_for_navigation run LOGIN_TIMEOUT_MILLISECONDS);
    (destruct (str_contains "/dashboard" (Auth.current_url run));
     [|destruct (Auth.close_error run); reflexivity]);
    (destruct (Auth.cookies_error run); [destruct (Auth.close_error run); reflexivity|]);
    rewrite transfer_cookies_eq; cbn;
    destruct (auth_transfer _ _ _) as [[u|x] j]; destruct (Auth.close_error run); reflexivity.
Qed.

Lemma auth_login_eq e p run s :
  Auth.login e p run s =
    Auth.perform_browser_login run
      (Auth.mkAuthState (Some e) (Some p) (Auth.a_jar s) (Auth.launched s) (Auth.closed s)).
Proof. reflexivity. Qed.

(** The credentials are stored whatever happens next; a browser is
    launched unless [launch] itself raises. *)
Lemma auth_login_state e p run s :
  Auth.a_email (snd (Auth.login e p run s)) = Some e /\
  Auth.a_password (snd (Auth.login e p run s)) = Some p /\
  ((exists m, Auth.login e p run s =
     (Err (BrowserError m),
      Auth.mkAuthState (Some e) (Some p) (Auth.a_jar s) (Auth.launched s) (Auth.closed s))) \/
   Auth.launched (snd (Auth.login e p run s)) = S (Auth.launched s)).
Proof.
  rewrite auth_login_eq, perform_browser_login_eq.
  destruct (Auth.launch_error run) as [m|]; cbn; eauto.
Qed.

Lemma retry_login_eq run s :
  Auth.retry_login run s =
    if Auth.truthy (Auth.a_email s) && Auth.truthy (Auth.a_password s) then
      match Auth.a_email s, Auth.a_password s with
      | Some e, Some p => Auth.login e p run s
      | _, _ => (Err (LoginError Auth.cannot_relogin_msg), s)
      end
    else (Err (LoginError Auth.cannot_relogin_msg), s).
Proof.
  unfold Auth.retry_login, bind at 1, Auth.can_retry_login.
  destruct (Auth.truthy (Auth.a_email s) && Auth.truthy (Auth.a_password s)); reflexivity.
Qed.

(** C7 (amended): [can_retry_login()] is [bool(self._email and
    self._password)]: false before any login, and after [login(e, p)] —
    whatever the browser flow did, since the credentials are stored first —
    it is true iff both [e] and [p] are non-empty. [retry_login()] raises
    [LoginError("Cannot re-login, credentials not stored.")] without
    launching a browser exactly when [can_retry_login()] is false;
    otherwise it re-runs [login] with the stored credentials. *)
Theorem can_retry_login_spec :
  Auth.can_retry_login Auth.init = (Ok false, Auth.init) /\
  (forall s, fst (Auth.can_retry_login s) =
               Ok (Auth.truthy (Auth.a_email s) && Auth.truthy (Auth.a_password s))) /\
  (forall e p run s,
     let s' := snd (Auth.login e p run s) in
     Auth.a_email s' = Some e /\ Auth.a_password s' = Some p /\
     fst (Auth.can_retry_login s') =
       Ok (negb (String.eqb e ""%string) && negb (String.eqb p ""%string))) /\
  (forall run s,
     Auth.retry_login run s = (Err (LoginError Auth.cannot_relogin_msg), s) <->
     Auth.truthy (Auth.a_email s) && Auth.truthy (Auth.a_password s) = false) /\
  (forall run e p j n m,
     let s := Auth.mkAuthState (Some e) (Some p) j n m in
     Auth.truthy (Some e) && Auth.truthy (Some p) = true ->
     Auth.retry_login run s = Auth.login e p run s).
Proof.
  split; [reflexivity|]. split; [reflexivity|]. split; [|split].
  - intros e p run s. cbv zeta.
    destruct (auth_login_state e p run s) as (He & Hp & _).
    unfold Auth.can_retry_login. simpl. rewrite He, Hp. auto.
  - intros run s. rewrite retry_login_eq.
    destruct (Auth.truthy (Auth.a_email s) && Auth.truthy (Auth.a_password s)) eqn:Hc;
      [|split; auto].
    split; [|discriminate]. intros H. exfalso.
    destruct s as [[e|] [p|] j n m]; simpl in Hc;
      rewrite ?andb_false_r in Hc; try discriminate.
    pose proof (auth_login_state e p run (Auth.mkAuthState (Some e) (Some p) j n m))
      as (_ & _ & [[m' Hl] | Hl]);
      cbn [Auth.a_email Auth.a_password] in H; rewrite H in Hl.
    + inversion Hl.
    + simpl in Hl. lia.
  - intros run e p j n m s Hc. subst s.
    rewrite retry_login_eq. simpl Auth.a_email. simpl Auth.a_password. rewrite Hc. reflexivity.
Qed.

(** C7 (counterexample): [login("", "pw")] stores credentials, yet
    [can_retry_login()] is false afterwards. *)
Lemma can_retry_false_after_empty_email_login :
  let s' := snd (Auth.login ""%string "pw" dashboard_run Auth.init) in
  Auth.a_email s' = Some ""%string /\ Auth.a_password s' = Some "pw"%string /\
  fst (Auth.can_retry_login s') = Ok false.
Proof. vm_compute. auto. Qed.




(** ** Allocation of the parsed profile *)

Lemma alloc_range_nil st : heap_fresh (wd st) -> alloc_range st st [].
Proof.
  intros Hf. split; [exact Hf|]. split; [constructor|].
  split; [intros l []|]. split; [reflexivity|lia].
Qed.

Lemma alloc_range_app st s1 s2 ls1 ls2 :
  alloc_range st s1 ls1 -> alloc_range s1 s2 ls2 -> alloc_range st s2 (ls1 ++ ls2).
Proof.
  intros (Hf1 & Hn1 & Hr1 & Ho1 & Hle1) (Hf2 & Hn2 & Hr2 & Ho2 & Hle2).
  split; [exact Hf2|]. split; [|split; [|split]].
  - apply NoDup_app. split; [exact Hn1|]. split; [|exact Hn2].
    intros l Hl1 Hl2. apply list_elem_of_In in Hl1, Hl2.
    destruct (Hr1 l Hl1) as [[_ ?] _]. destruct (Hr2 l Hl2) as [[? _] _]. lia.
  - intros l Hl. apply in_app_or in Hl as [Hl|Hl].
    + destruct (Hr1 l Hl) as [[? ?] Hs]. split; [lia|].
      rewrite Ho2 by lia. exact Hs.
    + destruct (Hr2 l Hl) as [[? ?] Hs]. split; [lia|exact Hs].
  - intros l Hl. rewrite Ho2 by lia. apply Ho1. exact Hl.
  - lia.
Qed.

Lemma alloc_spec d st :
  heap_fresh (wd st) ->
  exists l st', alloc d st = (Ok l, st') /\ cl st' = cl st /\
    wd st' = with_heap (heap (wd st')) (next_loc (wd st')) (wd st) /\
    alloc_range st st' [l].
Proof.
  intros Hf. eexists _, _. split; [reflexivity|]. split; [reflexivity|].
  split; [reflexivity|]. unfold alloc_range; cbn.
  split; [|split; [|split; [|split]]].
  - intros l' Hl'. unfold with_heap in *; cbn in *.
    rewrite lookup_insert_ne by lia. apply Hf. lia.
  - constructor; [intros []%elem_of_nil | constructor].
  - intros l' [<-|[]]. split; [simpl; lia|]. rewrite lookup_insert_eq. eauto.
  - intros l' Hl'. rewrite lookup_insert_ne by lia. reflexivity.
  - lia.
Qed.

Lemma alloc_units_spec ds st :
  heap_fresh (wd st) ->
  exists ls st', alloc_units ds st = (Ok ls, st') /\ cl st' = cl st /\
    wd st' = with_heap (heap (wd st')) (next_loc (wd st')) (wd st) /\
    alloc_range st st' ls.
Proof.
  revert st; induction ds as [|d ds IH]; intros st Hf.
  - exists [], st. split; [reflexivity|]. split; [reflexivity|].
    split; [destruct st as [c []]; reflexivity|]. apply alloc_range_nil, Hf.
  - destruct (alloc_spec d st Hf) as (l & s1 & Ha & Hc1 & Hw1 & Hr1).
    destruct (IH s1 (proj1 Hr1)) as (ls & s2 & Hu & Hc2 & Hw2 & Hr2).
    exists (l :: ls), s2. simpl. rewrite (bind_ok _ _ _ _ _ Ha), (bind_ok _ _ _ _ _ Hu).
    split; [reflexivity|]. split; [congruence|].
    split; [rewrite Hw2, Hw1; reflexivity|].
    apply (alloc_range_app st s1 s2 [l] ls Hr1 Hr2).
Qed.

Lemma alloc_buildings_spec bs st :
  heap_fresh (wd st) ->
  exists bs' st', alloc_buildings bs st = (Ok bs', st') /\ cl st' = cl st /\
    wd st' = with_heap (heap (wd st')) (next_loc (wd st')) (wd st) /\
    alloc_range st st' (concat (map building_units bs')).
Proof.
  revert st; induction bs as [|b bs IH]; intros st Hf.
  - exists [], st. split; [reflexivity|]. split; [reflexivity|].
    split; [destruct st as [c []]; reflexivity|]. apply alloc_range_nil, Hf.
  - destruct (alloc_units_spec (air_to_air_units b) st Hf) as (l1 & s1 & H1 & Hc1 & Hw1 & Hr1).
    destruct (alloc_units_spec (air_to_water_units b) s1 (proj1 Hr1))
      as (l2 & s2 & H2 & Hc2 & Hw2 & Hr2).
    destruct (IH s2 (proj1 Hr2)) as (bs' & s3 & H3 & Hc3 & Hw3 & Hr3).
    assert (Hb : alloc_building b st =
      (Ok (mkBuilding (building_id b) (building_name b) (timezone b) l1 l2), s2)).
    { unfold alloc_building. rewrite (bind_ok _ _ _ _ _ H1), (bind_ok _ _ _ _ _ H2).
      reflexivity. }
    eexists (_ :: bs'), s3. cbn [alloc_buildings].
    rewrite (bind_ok _ _ _ _ _ Hb), (bind_ok _ _ _ _ _ H3).
    split; [reflexivity|]. split; [congruence|].
    split; [rewrite Hw3, Hw2, Hw1; reflexivity|].
    simpl. unfold building_units at 1. simpl. rewrite <- app_assoc.
    eapply alloc_range_app; [exact Hr1|]. eapply alloc_range_app; [exact Hr2|exact Hr3].
Qed.

Lemma alloc_units_shape ds st :
  exists ls st', alloc_units ds st = (Ok ls, st') /\ cl st' = cl st /\
    wd st' = with_heap (heap (wd st')) (next_loc (wd st')) (wd st).
Proof.
  revert st; induction ds as [|d ds IH]; intros st.
  - exists [], st. split; [reflexivity|]. split; [reflexivity|].
    destruct st as [c []]; reflexivity.
  - destruct (IH (mkSt (cl st) (with_heap (<[next_loc (wd st) := d]> (heap (wd st)))
                                  (S (next_loc (wd st))) (wd st))))
      as (ls & s2 & Hu & Hc2 & Hw2).
    assert (Ha : alloc d st =
      (Ok (next_loc (wd st)),
       mkSt (cl st) (with_heap (<[next_loc (wd st) := d]> (heap (wd st)))
                       (S (next_loc (wd st))) (wd st)))) by reflexivity.
    exists (next_loc (wd st) :: ls), s2. simpl.
    rewrite (bind_ok _ _ _ _ _ Ha), (bind_ok _ _ _ _ _ Hu).
    split; [reflexivity|]. split; [exact Hc2|]. rewrite Hw2. reflexivity.
Qed.

Lemma alloc_profile_shape wire st :
  exists p st', alloc_profile wire st = (Ok p, st') /\ cl st' = cl st /\
    wd st' = with_heap (heap (wd st')) (next_loc (wd st')) (wd st).
Proof.
  unfold alloc_profile.
  assert (Hbs : forall bs st, exists bs' st', alloc_buildings bs st = (Ok bs', st') /\
            cl st' = cl st /\ wd st' = with_heap (heap (wd st')) (next_loc (wd st')) (wd st)).
  { induction bs as [|b bs IH]; intros s.
    - exists [], s. split; [reflexivity|]. split; [reflexivity|].
      destruct s as [c []]; reflexivity.
    - destruct (alloc_units_shape (air_to_air_units b) s) as (l1 & s1 & H1 & Hc1 & Hw1).
      destruct (alloc_units_shape (air_to_water_units b) s1) as (l2 & s2 & H2 & Hc2 & Hw2).
      destruct (IH s2) as (bs' & s3 & H3 & Hc3 & Hw3).
      assert (Hb : alloc_building b s =
        (Ok (mkBuilding (building_id b) (building_name b) (timezone b) l1 l2), s2)).
      { unfold alloc_building. rewrite (bind_ok _ _ _ _ _ H1), (bind_ok _ _ _ _ _ H2).
        reflexivity. }
      eexists (_ :: bs'), s3. cbn [alloc_buildings].
      rewrite (bind_ok _ _ _ _ _ Hb), (bind_ok _ _ _ _ _ H3).
      split; [reflexivity|]. split; [congruence|]. rewrite Hw3, Hw2, Hw1. reflexivity. }
  destruct (Hbs (buildings wire) st) as (bs' & st' & H & Hc & Hw).
  eexists _, st'. rewrite (bind_ok _ _ _ _ _ H). split; [reflexivity|]. auto.
Qed.

(** [_fetch_context], step by step. *)
Lemma fetch_context_eq mv st :
  Client.fetch_context mv st =
    match script (wd st) with
    | [] => (Err ClientConnectionError,
             mkSt (cl st) (with_io [] (log (wd st) ++ [context_request]) (wd st)))
    | r :: rest =>
        let st1 := mkSt (cl st) (with_io rest (log (wd st) ++ [context_request]) (wd st)) in
        if (status r <? 400)%Z then
          match decode_body r with
          | Err e => (Err e, st1)
          | Ok j =>
              match mv j with
              | None => (Err ValidationError, st1)
              | Some wire =>
                  match alloc_profile wire st1 with
                  | (Ok p, st2) =>
                      (Ok tt, mkSt (with_last_updated (Some (now (wd st2)))
                                      (with_profile (Some p) (last_updated (cl st2)) (cl st2)))
                                   (wd st2))
                  | (Err e, st2) => (Err e, st2)
                  end
              end
          end
        else (Err (ClientResponseError (status r)), st1)
    end.
Proof.
  unfold Client.fetch_context, bind at 1, http_request.
  destruct (script (wd st)) as [|r rest]; [reflexivity|].
  cbv zeta. unfold bind at 1, raise_for_status.
  destruct (status r <? 400)%Z; [|reflexivity].
  unfold ret at 1, bind at 1, response_json.
  destruct (decode_body r) as [j|e]; [|reflexivity].
  destruct (mv j) as [wire|]; [|reflexivity].
  unfold bind at 1.
  destruct (alloc_profile wire _) as [[p|e] st2]; reflexivity.
Qed.

(** [response.json()] raises none of the client's own errors. *)
Lemma decode_body_err r e :
  decode_body r = Err e ->
  e = ClientPayloadError \/ e = ContentTypeError (status r) \/ e = JSONDecodeError.
Proof.
  unfold decode_body. destruct (raw_body r), (json_content_type r);
    intros H; inversion H; auto.
Qed.

(** The cases of [_fetch_context] that reach [model_validate] with a
    valid document. *)
Ltac fetch_cases mv r :=
  destruct (status r <? 400)%Z;
  [ destruct (decode_body r) as [?j|?e] eqn:?Hd;
    [ match goal with |- context [mv ?j0] => destruct (mv j0) as [?wire|] end | ] | ].

Lemma fetch_context_ok mv st u st' :
  Client.fetch_context mv st = (Ok u, st') ->
  (exists p, user_profile (cl st') = Some p) /\
  last_updated (cl st') = Some (now (wd st)) /\
  now (wd st') = now (wd st) /\
  log (wd st') = log (wd st) ++ [context_request].
Proof.
  rewrite fetch_context_eq.
  destruct (script (wd st)) as [|r rest]; [discriminate|]. cbv zeta.
  fetch_cases mv r; try discriminate.
  match goal with |- context [alloc_profile ?wire ?s1] =>
    destruct (alloc_profile_shape wire s1) as (p & st2 & Ha & Hc & Hw); rewrite Ha
  end.
  intros H. inversion H; subst; clear H. cbn. rewrite Hw. cbn.
  split; [eauto|]. auto.
Qed.

Lemma fetch_context_err mv st e st' :
  Client.fetch_context mv st = (Err e, st') ->
  (e = ClientConnectionError \/ (exists c, e = ClientResponseError c) \/ e = ValidationError \/
   exists r, decode_body r = Err e) /\
  cl st' = cl st.
Proof.
  rewrite fetch_context_eq.
  destruct (script (wd st)) as [|r rest].
  { intros H; inversion H; subst; auto. }
  cbv zeta. fetch_cases mv r.
  - match goal with |- context [alloc_profile ?wire ?s1] =>
      destruct (alloc_profile_shape wire s1) as (p & st2 & Ha & Hc & Hw); rewrite Ha
    end. discriminate.
  - intros H; inversion H; subst; auto.
  - intros H; inversion H; subst. split; [|reflexivity]. right; right; right. eauto.
  - intros H; inversion H; subst; eauto.
Qed.

Lemma with_jar_twice j j' w : with_jar j (with_jar j' w) = with_jar j w.
Proof. reflexivity. Qed.

Lemma update_cookies_eq ju cs st :
  Client.update_cookies ju cs st =
    (fst (client_transfer ju cs (cookie_jar (wd st))),
     mkSt (cl st) (with_jar (snd (client_transfer ju cs (cookie_jar (wd st)))) (wd st))).
Proof.
  revert st; induction cs as [|c cs IH]; intros st;
    cbn [Client.update_cookies client_transfer].
  - destruct st as [c []]; reflexivity.
  - unfold bind at 1.
    destruct (cookie_name c), (cookie_value c); cbn -[Client.update_cookies client_transfer];
      try (rewrite IH; destruct st as [c' []]; reflexivity);
      (destruct (ju _ _ _ _) as [j|e]; cbn -[Client.update_cookies client_transfer];
       [rewrite IH; reflexivity|destruct st as [c' []]; reflexivity]).
Qed.

(** [MelCloudHomeClient.login], step by step: the body of [async with
    async_playwright()], then its exit. *)
Lemma client_login_eq mv e p run st :
  Client.login mv e p run st =
    let body :=
      match page_steps run with
      | Some m => (Err (BrowserError m), st)
      | None =>
          match wait_for_url run DASHBOARD_URL_PATTERN LOGIN_TIMEOUT_MILLISECONDS with
          | WaitTimeout x => (Err (ConnectionError (Client.login_failed_prefix ++ x)%string), st)
          | WaitOk =>
              match cookies_error run with
              | Some m => (Err (BrowserError m), st)
              | None =>
                  let t := client_transfer (jar_update run) (context_cookies run)
                             (cookie_jar (wd st)) in
                  let st1 := mkSt (cl st) (with_jar (snd t) (wd st)) in
                  match fst t with
                  | Err x => (Err x, st1)
                  | Ok _ =>
                      match close_error run with
                      | Some m => (Err (BrowserError m), st1)
                      | None => Client.fetch_context mv st1
                      end
                  end
              end
          end
      end in
    (match stop_error run with Some m => Err (BrowserError m) | None => fst body end, snd body).
Proof.
  unfold Client.login, try_finally.
  cbv [bind browser_step ret raise].
  destruct (page_steps run) as [m|];
    [destruct (stop_error run); reflexivity|].
  destruct (wait_for_url run DASHBOARD_URL_PATTERN LOGIN_TIMEOUT_MILLISECONDS) as [|x];
    [|destruct (stop_error run); reflexivity].
  destruct (cookies_error run) as [m|]; [destruct (stop_error run); reflexivity|].
  rewrite update_cookies_eq. cbv zeta.
  destruct (fst (client_transfer _ _ _)) as [u|x];
    [|destruct (stop_error run); reflexivity].
  destruct (close_error run) as [m|]; [destruct (stop_error run); reflexivity|].
  destruct (Client.fetch_context mv _) as [[u'|x] st2]; destruct (stop_error run); reflexivity.
Qed.

(** C10: when [login()] returns normally, its last step was a successful
    [_fetch_context]: the cached profile is present, [last_updated] is the
    clock reading at the fetch, and the last request sent was the context
    fetch. *)
Theorem login_populates_profile : forall mv e p run st u st',
  Client.login mv e p run st = (Ok u, st') ->
  (exists prof, user_profile (cl st') = Some prof) /\
  last_updated (cl st') = Some (now (wd st)) /\
  exists pre, log (wd st') = pre ++ [context_request].
Proof.
  intros mv e p run st u st' H. rewrite client_login_eq in H. cbv zeta in H.
  destruct (stop_error run); [inversion H|].
  destruct (page_steps run); [inversion H|].
  destruct (wait_for_url run DASHBOARD_URL_PATTERN LOGIN_TIMEOUT_MILLISECONDS); [|inversion H].
  destruct (cookies_error run); [inversion H|].
  destruct (fst (client_transfer _ _ _)); [|inversion H].
  destruct (close_error run); [inversion H|].
  destruct (Client.fetch_context mv _) as [r st2] eqn:Hf. cbn in H. inversion H; subst.
  destruct (fetch_context_ok _ _ _ _ Hf) as (Hp & Hl & _ & Hlog).
  split; [exact Hp|]. split; [exact Hl|]. eauto.
Qed.

Lemma login_populates_profile_witness :
  fst (Client.login sample_validate "test@example.com" "password123" page_run_ok
         (Client.init None login_world)) = Ok tt /\
  ((exists prof, user_profile (cl (snd (Client.login sample_validate "test@example.com"
        "password123" page_run_ok (Client.init None login_world)))) = Some prof) /\
   last_updated (cl (snd (Client.login sample_validate "test@example.com" "password123"
        page_run_ok (Client.init None login_world)))) =
     Some (now (wd (Client.init None login_world))) /\
   exists pre, log (wd (snd (Client.login sample_validate "test@example.com" "password123"
        page_run_ok (Client.init None login_world)))) = pre ++ [context_request]).
Proof.
  split; [vm_compute; reflexivity|].
  apply (login_populates_profile sample_validate "test@example.com" "password123" page_run_ok
           (Client.init None login_world) tt).
  vm_compute. reflexivity.
Defined.

(** ** Reads and writes of the client *)

Lemma refresh_eq mv st :
  Client.refresh_if_needed mv st =
    if Client.needs_refresh (cl st) (now (wd st)) then Client.fetch_context mv st
    else (Ok tt, st).
Proof.
  unfold Client.refresh_if_needed, bind, get_client, datetime_now. cbn beta iota.
  destruct (Client.needs_refresh (cl st) (now (wd st))); reflexivity.
Qed.

Lemma fetch_context_log mv st :
  log (wd (snd (Client.fetch_context mv st))) = log (wd st) ++ [context_request].
Proof.
  rewrite fetch_context_eq.
  destruct (script (wd st)) as [|r rest]; [reflexivity|]. cbv zeta.
  fetch_cases mv r; try reflexivity.
  match goal with |- context [alloc_profile ?wire ?s1] =>
    destruct (alloc_profile_shape wire s1) as (p & st2 & Ha & Hc & Hw); rewrite Ha
  end.
  cbn. rewrite Hw. reflexivity.
Qed.

(** C1 (code_bug): the read path has no re-authentication: when the
    cache needs a refresh and the context fetch is answered with an error
    status (401 included), [list_devices] and [get_device_state] raise that
    [ClientResponseError] after exactly one request, the context fetch,
    with nothing else changed. The client keeps no credentials to retry
    with. *)
Theorem context_fetch_error_not_retried : forall mv st r rest,
  Client.needs_refresh (cl st) (now (wd st)) = true ->
  script (wd st) = r :: rest ->
  (status r <? 400)%Z = false ->
  Client.list_devices mv st =
    (Err (ClientResponseError (status r)),
     mkSt (cl st) (with_io rest (log (wd st) ++ [context_request]) (wd st))) /\
  (forall device_id,
     Client.get_device_state mv device_id st =
       (Err (ClientResponseError (status r)),
        mkSt (cl st) (with_io rest (log (wd st) ++ [context_request]) (wd st)))).
Proof.
  intros mv st r rest Hn Hs Hst.
  assert (Hf : Client.fetch_context mv st =
    (Err (ClientResponseError (status r)),
     mkSt (cl st) (with_io rest (log (wd st) ++ [context_request]) (wd st)))).
  { rewrite fetch_context_eq, Hs. cbv zeta. rewrite Hst. reflexivity. }
  assert (Hr : Client.refresh_if_needed mv st =
    (Err (ClientResponseError (status r)),
     mkSt (cl st) (with_io rest (log (wd st) ++ [context_request]) (wd st)))).
  { rewrite refresh_eq, Hn. exact Hf. }
  split.
  - unfold Client.list_devices. exact (bind_err _ _ _ _ _ Hr).
  - intros device_id. unfold Client.get_device_state. exact (bind_err _ _ _ _ _ Hr).
Qed.

Lemma context_fetch_error_not_retried_witness :
  Client.needs_refresh (cl stale_state) (now (wd stale_state)) = true /\
  script (wd stale_state) = [json_response 401 (JStr "Unauthorized")] /\
  (status (json_response 401 (JStr "Unauthorized")) <? 400)%Z = false /\
  Client.list_devices sample_validate stale_state =
    (Err (ClientResponseError 401),
     mkSt (cl stale_state) (with_io [] (log (wd stale_state) ++ [context_request])
                              (wd stale_state))).
Proof.
  split; [reflexivity|]. split; [reflexivity|]. split; [reflexivity|].
  apply (context_fetch_error_not_retried sample_validate stale_state
           (json_response 401 (JStr "Unauthorized")) []); reflexivity.
Defined.

(** C1 (failing input): after a successful login and more than five
    minutes, a 401 on the context fetch makes [list_devices] fail after one
    request; no re-login and no second fetch happen, although the server
    would have answered one. *)
Lemma expired_session_not_recovered :
  let st1 := Client.run_ops sample_validate
               [Client.OpLogin "test@example.com" "password123" page_run_ok;
                Client.OpAdvanceClock (cache_ttl + 1)]
               (Client.init None expiry_world) in
  fst (Client.list_devices sample_validate st1) = Err (ClientResponseError 401) /\
  length (log (wd (snd (Client.list_devices sample_validate st1)))) =
    S (length (log (wd st1))) /\
  script (wd (snd (Client.list_devices sample_validate st1))) =
    [json_response 200 sample_context].
Proof. vm_compute. auto. Qed.

(** C2 (code_bug): after a successful write the client sets
    [last_updated] to [None], which the staleness guard reads as fresh: a
    read right after the write, or an hour later, sends no request. *)
Theorem write_does_not_force_refetch :
  let st1 := snd (Client.login sample_validate "test@example.com" "password123" page_run_ok
                    (Client.init None write_world)) in
  let w := Client.set_device_state "atw-device-id" DEVICE_TYPE_AIR_TO_WATER write_payload st1 in
  let st2 := snd w in
  let st3 := snd (Client.advance_clock (12 * cache_ttl) st2) in
  fst w = Ok write_ack /\
  last_updated (cl st2) = None /\
  log (wd (snd (Client.list_devices sample_validate st2))) = log (wd st2) /\
  log (wd (snd (Client.list_devices sample_validate st3))) = log (wd st3) /\
  length (log (wd st3)) = 2%nat.
Proof. vm_compute. repeat split; reflexivity. Qed.

(** For any state: a successful write keeps the cached profile and clears
    [last_updated], after which a cached profile never counts as stale. *)
Lemma set_device_state_ok device_id device_type state_data st j st' :
  Client.set_device_state device_id device_type state_data st = (Ok j, st') ->
  user_profile (cl st') = user_profile (cl st) /\ last_updated (cl st') = None /\
  (user_profile (cl st) <> None -> forall t, Client.needs_refresh (cl st') t = false).
Proof.
  unfold Client.set_device_state.
  destruct (String.eqb device_type ""%string); [discriminate|].
  cbv [bind http_request raise_for_status modify_client response_json ret raise].
  destruct (script (wd st)) as [|r rest]; [discriminate|].
  destruct (status r <? 400)%Z; [|discriminate].
  destruct (decode_body r); [|discriminate].
  intros H. inversion H; subst; clear H. cbn.
  split; [reflexivity|]. split; [reflexivity|].
  intros Hp t. unfold Client.needs_refresh. cbn.
  destruct (user_profile (cl st)); [reflexivity|congruence].
Qed.

Lemma get_device_state_eq mv device_id st :
  Client.get_device_state mv device_id st =
    match Client.refresh_if_needed mv st with
    | (Err e, s1) => (Err e, s1)
    | (Ok _, s1) =>
        match user_profile (cl s1) with
        | None => (Err (ValueError Client.not_logged_in_msg), s1)
        | Some _ =>
            match script (wd s1) with
            | [] => (Err ClientConnectionError,
                     mkSt (cl s1) (with_io [] (log (wd s1) ++ [state_request device_id]) (wd s1)))
            | r :: rest =>
                (if (status r <? 400)%Z then decode_body r else Err (ClientResponseError (status r)),
                 mkSt (cl s1) (with_io rest (log (wd s1) ++ [state_request device_id]) (wd s1)))
            end
        end
    end.
Proof.
  unfold Client.get_device_state, bind at 1.
  destruct (Client.refresh_if_needed mv st) as [[u|e] s1]; [|reflexivity].
  unfold bind at 1, get_client. cbn beta iota.
  destruct (user_profile (cl s1)); [|reflexivity].
  unfold bind at 1, http_request.
  destruct (script (wd s1)) as [|r rest]; [reflexivity|].
  unfold bind, raise_for_status, response_json. destruct (status r <? 400)%Z; reflexivity.
Qed.

(** After a successful refresh a profile is cached. *)
Lemma refresh_ok_profile mv st u s1 :
  Client.refresh_if_needed mv st = (Ok u, s1) -> exists p, user_profile (cl s1) = Some p.
Proof.
  rewrite refresh_eq. destruct (Client.needs_refresh (cl st) (now (wd st))) eqn:Hn.
  - intros H. apply fetch_context_ok in H. tauto.
  - intros H. inversion H; subst. unfold Client.needs_refresh in Hn.
    destruct (user_profile (cl s1)); [eauto|discriminate].
Qed.

(** C8 (code_bug): [get_device_state] never raises its "Please login
    first" [ValueError]: with no cached profile (or one older than five
    minutes) it first fetches the user context, whose errors propagate; with
    a fresh cache it sends [GET device/{id}/state] and gives what
    [response.json()] gives for a status below 400 (the decoded body, or
    its decoding error), raising [ClientResponseError] otherwise. The
    identifier is never looked up in the snapshot, so an unknown device
    gives whatever the server answers, not an absent result. *)
Theorem get_device_state_behaviour :
  (forall mv device_id st,
     fst (Client.get_device_state mv device_id st) <> Err (ValueError Client.not_logged_in_msg)) /\
  (forall mv device_id st,
     user_profile (cl st) = None ->
     exists rest, log (wd (snd (Client.get_device_state mv device_id st))) =
                  log (wd st) ++ context_request :: rest) /\
  (forall mv device_id st r rest,
     Client.needs_refresh (cl st) (now (wd st)) = false ->
     script (wd st) = r :: rest ->
     Client.get_device_state mv device_id st =
       (if (status r <? 400)%Z then decode_body r else Err (ClientResponseError (status r)),
        mkSt (cl st) (with_io rest (log (wd st) ++ [state_request device_id]) (wd st)))).
Proof.
  split; [|split].
  - intros mv device_id st. rewrite get_device_state_eq.
    destruct (Client.refresh_if_needed mv st) as [[u|e] s1] eqn:Hr.
    + destruct (refresh_ok_profile _ _ _ _ Hr) as [p ->].
      destruct (script (wd s1)) as [|r rest]; [discriminate|].
      destruct (status r <? 400)%Z; [|discriminate]. cbn.
      destruct (decode_body r) as [j|e] eqn:Hd; [discriminate|].
      intros H. inversion H; subst.
      destruct (decode_body_err _ _ Hd) as [?|[?|?]]; discriminate.
    + cbn. rewrite refresh_eq in Hr.
      destruct (Client.needs_refresh (cl st) (now (wd st))); [|discriminate].
      apply fetch_context_err in Hr as [[-> | [[c ->] | [-> | [r Hd]]]] _]; try discriminate.
      intros H. inversion H; subst.
      destruct (decode_body_err _ _ Hd) as [?|[?|?]]; discriminate.
  - intros mv device_id st Hp. rewrite get_device_state_eq.
    assert (Hl : log (wd (snd (Client.refresh_if_needed mv st))) =
                 log (wd st) ++ [context_request]).
    { rewrite refresh_eq. unfold Client.needs_refresh. rewrite Hp. apply fetch_context_log. }
    destruct (Client.refresh_if_needed mv st) as [[u|e] s1] eqn:Hr; cbn in Hl.
    + destruct (user_profile (cl s1)); [|exists []; exact Hl].
      destruct (script (wd s1)); cbn; rewrite Hl, <- app_assoc; eexists; reflexivity.
    + exists []. exact Hl.
  - intros mv device_id st r rest Hn Hs. rewrite get_device_state_eq, refresh_eq, Hn.
    assert (Hp : exists p, user_profile (cl st) = Some p).
    { unfold Client.needs_refresh in Hn. destruct (user_profile (cl st)); [eauto|discriminate]. }
    destruct Hp as [p ->]. rewrite Hs. reflexivity.
Qed.

Lemma get_device_state_behaviour_witness :
  Client.needs_refresh (cl fresh_state) (now (wd fresh_state)) = false /\
  script (wd fresh_state) = [json_response 200 state_body] /\
  Client.get_device_state sample_validate "atw-device-id"%string fresh_state =
    (Ok state_body,
     mkSt (cl fresh_state)
          (with_io [] (log (wd fresh_state) ++ [state_request "atw-device-id"%string]) (wd fresh_state))).
Proof.
  split; [reflexivity|]. split; [reflexivity|].
  apply (proj2 (proj2 get_device_state_behaviour) sample_validate "atw-device-id"%string fresh_state
           (json_response 200 state_body) []); reflexivity.
Defined.

(** C8 (failing input): on a client that never fetched a profile,
    reading the state of an identifier absent from the account neither
    raises a "not authenticated" error nor gives an absent result: the
    client fetches the context and returns the server's state body. *)
Lemma state_read_before_any_fetch_succeeds :
  user_profile (cl (Client.init None state_world)) = None /\
  fst (Client.get_device_state sample_validate "nonexistent-device-id"%string
         (Client.init None state_world)) = Ok state_body.
Proof. split; vm_compute; reflexivity. Qed.

(** ** Device extraction: tagging in place *)

Lemma set_device_type_type ty d : device_type (set_device_type ty d) = ty.
Proof. destruct d; reflexivity. Qed.

Lemma set_device_type_idem ty ty' d :
  set_device_type ty (set_device_type ty' d) = set_device_type ty d.
Proof. destruct d; reflexivity. Qed.

Lemma tag_unit_eq ty l st :
  Client.tag_unit ty l st =
    (Ok tt, mkSt (cl st) (with_heap (tag_pure ty (heap (wd st)) l) (next_loc (wd st)) (wd st))).
Proof.
  unfold Client.tag_unit, modify_world, tag_pure.
  destruct (heap (wd st) !! l); [reflexivity|].
  destruct st as [c []]; reflexivity.
Qed.

Lemma tag_units_eq ty us acc st :
  Client.tag_units ty us acc st =
    (Ok (acc ++ us),
     mkSt (cl st) (with_heap (tag_list ty us (heap (wd st))) (next_loc (wd st)) (wd st))).
Proof.
  revert acc st; induction us as [|u us IH]; intros acc st; cbn [Client.tag_units tag_list].
  - rewrite app_nil_r. destruct st as [c []]; reflexivity.
  - rewrite (bind_ok _ _ _ _ _ (tag_unit_eq ty u st)), IH.
    rewrite <- app_assoc. reflexivity.
Qed.

Lemma walk_buildings_eq bs acc st :
  Client.walk_buildings bs acc st =
    (Ok (acc ++ concat (map building_units bs)),
     mkSt (cl st) (with_heap (tag_buildings bs (heap (wd st))) (next_loc (wd st)) (wd st))).
Proof.
  revert acc st; induction bs as [|b bs IH]; intros acc st; cbn [Client.walk_buildings tag_buildings].
  - rewrite app_nil_r. destruct st as [c []]; reflexivity.
  - rewrite (bind_ok _ _ _ _ _ (tag_units_eq _ _ _ _)).
    rewrite (bind_ok _ _ _ _ _ (tag_units_eq _ _ _ _)), IH.
    cbn. unfold building_units. rewrite !app_assoc. reflexivity.
Qed.

Lemma collect_devices_eq st :
  Client.collect_devices st =
    match user_profile (cl st) with
    | None => (Ok [], st)
    | Some p =>
        (Ok (profile_units p),
         mkSt (cl st) (with_heap (tag_buildings (buildings p) (heap (wd st)))
                         (next_loc (wd st)) (wd st)))
    end.
Proof.
  unfold Client.collect_devices, bind at 1, get_client. cbn beta iota.
  destruct (user_profile (cl st)) as [p|]; [|reflexivity].
  rewrite walk_buildings_eq. reflexivity.
Qed.

Lemma tag_pure_lookup ty h l k :
  tag_pure ty h l !! k =
    if decide (k = l) then set_device_type (Some ty) <$> h !! k else h !! k.
Proof.
  unfold tag_pure. destruct (h !! l) as [d|] eqn:E; case_decide; subst.
  - rewrite lookup_insert_eq, E. reflexivity.
  - rewrite lookup_insert_ne by congruence. reflexivity.
  - rewrite E. reflexivity.
  - reflexivity.
Qed.

Lemma tag_list_notin ty ls h k :
  ~ In k ls -> tag_list ty ls h !! k = h !! k.
Proof.
  revert h; induction ls as [|l ls IH]; intros h Hk; cbn [tag_list]; [reflexivity|].
  rewrite IH by (intros ?; apply Hk; right; assumption).
  rewrite tag_pure_lookup. case_decide; [subst; exfalso; apply Hk; left; reflexivity|reflexivity].
Qed.

Lemma tag_list_in ty ls h k :
  In k ls -> tag_list ty ls h !! k = set_device_type (Some ty) <$> h !! k.
Proof.
  revert h; induction ls as [|l ls IH]; intros h Hk; cbn [tag_list]; [destruct Hk|].
  destruct (in_dec Nat.eq_dec k ls) as [Hin|Hnin].
  - rewrite IH by exact Hin. rewrite tag_pure_lookup.
    case_decide; [|reflexivity].
    destruct (h !! k); [cbn; rewrite set_device_type_idem|]; reflexivity.
  - rewrite tag_list_notin by exact Hnin. rewrite tag_pure_lookup.
    case_decide; [reflexivity|].
    destruct Hk as [->|Hk]; [congruence|contradiction].
Qed.

Lemma in_profile_walk (b : Building nat) bs k :
  In b bs -> In k (building_units b) -> In k (concat (map building_units bs)).
Proof.
  induction bs as [|b' bs IH]; intros Hb Hk; [destruct Hb|].
  cbn. apply in_or_app. destruct Hb as [->|Hb]; [left; exact Hk|right; apply IH; assumption].
Qed.

Lemma tag_buildings_notin bs h k :
  ~ In k (concat (map building_units bs)) -> tag_buildings bs h !! k = h !! k.
Proof.
  revert h; induction bs as [|b bs IH]; intros h Hk; cbn [tag_buildings]; [reflexivity|].
  cbn in Hk. unfold building_units at 1 in Hk.
  rewrite IH by (intros ?; apply Hk, in_or_app; right; assumption).
  rewrite !tag_list_notin; [reflexivity| |];
    intros ?; apply Hk, in_or_app; left; apply in_or_app; auto.
Qed.

(** Under [NoDup], each unit ends with the tag of the one sub-list it
    belongs to, and keeps its other fields. *)
Lemma tag_buildings_in bs h b k :
  NoDup (concat (map building_units bs)) -> In b bs ->
  (In k (air_to_air_units b) ->
     tag_buildings bs h !! k = set_device_type (Some DEVICE_TYPE_AIR_TO_AIR) <$> h !! k) /\
  (In k (air_to_water_units b) ->
     tag_buildings bs h !! k = set_device_type (Some DEVICE_TYPE_AIR_TO_WATER) <$> h !! k).
Proof.
  revert h; induction bs as [|b0 bs IH]; intros h Hnd Hb; [destruct Hb|].
  cbn [tag_buildings]. cbn in Hnd. unfold building_units at 1 in Hnd.
  rewrite <- app_assoc in Hnd.
  apply NoDup_app in Hnd as (Hnd1 & Hdis1 & Hnd2).
  apply NoDup_app in Hnd2 as (Hnd3 & Hdis2 & Hnd4).
  assert (Hnot_rest : forall x, In x (air_to_air_units b0 ++ air_to_water_units b0) ->
            ~ In x (concat (map building_units bs))).
  { intros x Hx Hr. apply in_app_or in Hx as [Hx|Hx].
    - apply (Hdis1 x); apply list_elem_of_In; [exact Hx|apply in_or_app; right; exact Hr].
    - apply (Hdis2 x); apply list_elem_of_In; [exact Hx|exact Hr]. }
  destruct Hb as [<-|Hb].
  - split; intros Hk.
    + rewrite tag_buildings_notin by (apply Hnot_rest, in_or_app; left; exact Hk).
      rewrite tag_list_notin.
      * apply tag_list_in, Hk.
      * intros Hw. apply (Hdis1 k); apply list_elem_of_In; [exact Hk|apply in_or_app; left; exact Hw].
    + rewrite tag_buildings_notin by (apply Hnot_rest, in_or_app; right; exact Hk).
      rewrite tag_list_in by exact Hk.
      rewrite tag_list_notin; [reflexivity|].
      intros Ha. apply (Hdis1 k); apply list_elem_of_In; [exact Ha|apply in_or_app; left; exact Hk].
  - destruct (IH (tag_list DEVICE_TYPE_AIR_TO_WATER (air_to_water_units b0)
                    (tag_list DEVICE_TYPE_AIR_TO_AIR (air_to_air_units b0) h)) Hnd4 Hb)
      as [IH1 IH2].
    assert (Hk0 : forall k, In k (building_units b) ->
      tag_list DEVICE_TYPE_AIR_TO_WATER (air_to_water_units b0)
        (tag_list DEVICE_TYPE_AIR_TO_AIR (air_to_air_units b0) h) !! k = h !! k).
    { intros x Hx. pose proof (in_profile_walk b bs x Hb Hx) as Hr.
      rewrite !tag_list_notin; [reflexivity| |];
        intros Hx0; apply (Hnot_rest x); auto using in_or_app. }
    split; intros Hk.
    + rewrite IH1 by exact Hk. rewrite Hk0; [reflexivity|]. apply in_or_app; left; exact Hk.
    + rewrite IH2 by exact Hk. rewrite Hk0; [reflexivity|]. apply in_or_app; right; exact Hk.
Qed.

(** ** The allocation invariant along the read path *)

Lemma alloc_profile_spec wire st :
  heap_fresh (wd st) ->
  exists p st', alloc_profile wire st = (Ok p, st') /\ cl st' = cl st /\
    wd st' = with_heap (heap (wd st')) (next_loc (wd st')) (wd st) /\
    alloc_range st st' (profile_units p).
Proof.
  intros Hf. unfold alloc_profile.
  destruct (alloc_buildings_spec (buildings wire) st Hf) as (bs' & st' & H & Hc & Hw & Hr).
  eexists _, st'. rewrite (bind_ok _ _ _ _ _ H). split; [reflexivity|]. auto.
Qed.

Lemma fetch_context_inv mv st u st' :
  client_inv st -> Client.fetch_context mv st = (Ok u, st') -> client_inv st'.
Proof.
  intros [Hf _]. rewrite fetch_context_eq.
  destruct (script (wd st)) as [|r rest]; [discriminate|]. cbv zeta.
  fetch_cases mv r; try discriminate.
  match goal with |- context [alloc_profile ?wire ?s1] =>
    destruct (alloc_profile_spec wire s1 Hf) as (p & st2 & Ha & Hc & Hw & Hr); rewrite Ha
  end.
  intros H. inversion H; subst; clear H.
  destruct Hr as (Hf2 & Hnd & Hlive & _).
  split; [exact Hf2|]. intros p' Hp'. cbn in Hp'. inversion Hp'; subst.
  split; [exact Hnd|]. intros l Hl. apply (Hlive l Hl).
Qed.

Lemma refresh_inv mv st u st' :
  client_inv st -> Client.refresh_if_needed mv st = (Ok u, st') -> client_inv st'.
Proof.
  intros Hi. rewrite refresh_eq. destruct (Client.needs_refresh (cl st) (now (wd st))).
  - apply fetch_context_inv, Hi.
  - intros H. inversion H; subst. exact Hi.
Qed.

(** C3: on a client whose heap respects the allocation invariant, a
    successful [list_devices] returns the units of the cached profile in
    building order, each building's air-to-air units before its
    air-to-water units, and afterwards every air-to-air unit object is
    tagged "ataunit" and every air-to-water unit object "atwunit". *)
Theorem list_devices_order_and_tags : forall mv st devs st',
  client_inv st ->
  Client.list_devices mv st = (Ok devs, st') ->
  exists p, user_profile (cl st') = Some p /\
    devs = concat (map (fun b => air_to_air_units b ++ air_to_water_units b) (buildings p)) /\
    forall b, In b (buildings p) ->
      (forall l, In l (air_to_air_units b) ->
         exists d, heap (wd st') !! l = Some d /\ device_type d = Some DEVICE_TYPE_AIR_TO_AIR) /\
      (forall l, In l (air_to_water_units b) ->
         exists d, heap (wd st') !! l = Some d /\ device_type d = Some DEVICE_TYPE_AIR_TO_WATER).
Proof.
  intros mv st devs st' Hi H. unfold Client.list_devices in H.
  apply bind_inv in H as [(u & s1 & Hr & Hc) | (e & _ & Hr)]; [|discriminate].
  pose proof (refresh_inv _ _ _ _ Hi Hr) as [_ Hok].
  destruct (refresh_ok_profile _ _ _ _ Hr) as [p Hp].
  destruct (Hok p Hp) as [Hnd Hlive].
  rewrite collect_devices_eq, Hp in Hc. inversion Hc; subst; clear Hc.
  exists p. split; [exact Hp|]. split; [reflexivity|].
  intros b Hb.
  split; intros l Hl; cbn.
  - rewrite (proj1 (tag_buildings_in _ _ b l Hnd Hb) Hl).
    destruct (Hlive l) as [d Hd].
    { apply (in_profile_walk b), in_or_app; [exact Hb|left; exact Hl]. }
    rewrite Hd. eexists; split; [reflexivity|apply set_device_type_type].
  - rewrite (proj2 (tag_buildings_in _ _ b l Hnd Hb) Hl).
    destruct (Hlive l) as [d Hd].
    { apply (in_profile_walk b), in_or_app; [exact Hb|right; exact Hl]. }
    rewrite Hd. eexists; split; [reflexivity|apply set_device_type_type].
Qed.

Lemma list_devices_order_and_tags_witness :
  client_inv (Client.init None login_world) /\
  Client.list_devices sample_validate (Client.init None login_world) =
    (Ok [0%nat; 1%nat], snd (Client.list_devices sample_validate (Client.init None login_world))) /\
  exists p, user_profile (cl (snd (Client.list_devices sample_validate
                                     (Client.init None login_world)))) = Some p /\
    [0%nat; 1%nat] =
      concat (map (fun b => air_to_air_units b ++ air_to_water_units b) (buildings p)) /\
    forall b, In b (buildings p) ->
      (forall l, In l (air_to_air_units b) ->
         exists d, heap (wd (snd (Client.list_devices sample_validate
                                   (Client.init None login_world)))) !! l = Some d /\
                   device_type d = Some DEVICE_TYPE_AIR_TO_AIR) /\
      (forall l, In l (air_to_water_units b) ->
         exists d, heap (wd (snd (Client.list_devices sample_validate
                                   (Client.init None login_world)))) !! l = Some d /\
                   device_type d = Some DEVICE_TYPE_AIR_TO_WATER).
Proof.
  assert (Hi : client_inv (Client.init None login_world)).
  { split; [intros l _; apply lookup_empty|intros p Hp; discriminate]. }
  split; [exact Hi|]. split; [vm_compute; reflexivity|].
  apply (list_devices_order_and_tags sample_validate (Client.init None login_world)).
  - exact Hi.
  - vm_compute. reflexivity.
Defined.

(** C4 (counterexample): after a login, [list_devices] on the fresh cache
    keeps the same cached profile, whose first unit is the object at
    reference 0, and that object, untagged before the call, carries the
    "ataunit" tag after it: the snapshot's own unit was mutated. *)
Lemma list_devices_mutates_cached_snapshot :
  let st1 := snd (Client.login sample_validate "test@example.com" "password123" page_run_ok
                    (Client.init None login_world)) in
  let st2 := snd (Client.list_devices sample_validate st1) in
  user_profile (cl st2) = user_profile (cl st1) /\
  profile_units <$> user_profile (cl st1) = Some [0%nat; 1%nat] /\
  heap (wd st1) !! 0%nat = Some ata_unit /\
  device_type ata_unit = None /\
  heap (wd st2) !! 0%nat = Some (set_device_type (Some DEVICE_TYPE_AIR_TO_AIR) ata_unit).
Proof. vm_compute. repeat split; reflexivity. Qed.

(** C4 (amended): with a fresh cached profile [p], [list_devices] returns
    [p]'s own unit references, keeps [p] cached, and assigns the tag on the
    shared objects: each air-to-air unit object of [p] gets [device_type]
    "ataunit", each air-to-water one "atwunit", with its other fields
    unchanged; every other object is left alone. *)
Theorem list_devices_tags_cached_snapshot : forall mv st p,
  client_inv st ->
  user_profile (cl st) = Some p ->
  Client.needs_refresh (cl st) (now (wd st)) = false ->
  exists h', Client.list_devices mv st =
      (Ok (profile_units p), mkSt (cl st) (with_heap h' (next_loc (wd st)) (wd st))) /\
    (forall b l, In b (buildings p) -> In l (air_to_air_units b) ->
       h' !! l = set_device_type (Some DEVICE_TYPE_AIR_TO_AIR) <$> heap (wd st) !! l) /\
    (forall b l, In b (buildings p) -> In l (air_to_water_units b) ->
       h' !! l = set_device_type (Some DEVICE_TYPE_AIR_TO_WATER) <$> heap (wd st) !! l) /\
    (forall l, ~ In l (profile_units p) -> h' !! l = heap (wd st) !! l).
Proof.
  intros mv st p [_ Hok] Hp Hn. destruct (Hok p Hp) as [Hnd _].
  exists (tag_buildings (buildings p) (heap (wd st))).
  split; [|split; [|split]].
  - assert (Hr : Client.refresh_if_needed mv st = (Ok tt, st)) by (rewrite refresh_eq, Hn; reflexivity).
    unfold Client.list_devices. rewrite (bind_ok _ _ _ _ _ Hr), collect_devices_eq, Hp.
    reflexivity.
  - intros b l Hb Hl. exact (proj1 (tag_buildings_in _ _ b l Hnd Hb) Hl).
  - intros b l Hb Hl. exact (proj2 (tag_buildings_in _ _ b l Hnd Hb) Hl).
  - intros l Hl. apply tag_buildings_notin, Hl.
Qed.

Lemma list_devices_tags_cached_snapshot_witness :
  let st1 := snd (Client.login sample_validate "test@example.com" "password123" page_run_ok
                    (Client.init None login_world)) in
  client_inv st1 /\
  user_profile (cl st1) =
    Some (mkUserProfile "user-id" "test@example.com"
            [mkBuilding "building-id" "Test Building" "UTC" [0%nat] [1%nat]]) /\
  Client.needs_refresh (cl st1) (now (wd st1)) = false /\
  exists h', Client.list_devices sample_validate st1 =
      (Ok [0%nat; 1%nat], mkSt (cl st1) (with_heap h' (next_loc (wd st1)) (wd st1))) /\
    (forall b l, In b [mkBuilding "building-id" "Test Building" "UTC" [0%nat] [1%nat]] ->
       In l (air_to_air_units b) ->
       h' !! l = set_device_type (Some DEVICE_TYPE_AIR_TO_AIR) <$> heap (wd st1) !! l) /\
    (forall b l, In b [mkBuilding "building-id" "Test Building" "UTC" [0%nat] [1%nat]] ->
       In l (air_to_water_units b) ->
       h' !! l = set_device_type (Some DEVICE_TYPE_AIR_TO_WATER) <$> heap (wd st1) !! l) /\
    (forall l, ~ In l [0%nat; 1%nat] -> h' !! l = heap (wd st1) !! l).
Proof.
  cbv zeta.
  assert (Hi : client_inv (snd (Client.login sample_validate "test@example.com" "password123"
                 page_run_ok (Client.init None login_world)))).
  { assert (Hh : heap (wd (snd (Client.login sample_validate "test@example.com" "password123"
                   page_run_ok (Client.init None login_world)))) =
                 <[1%nat := atw_unit]> (<[0%nat := ata_unit]> ∅)) by (vm_compute; reflexivity).
    split.
    - intros l Hl. vm_compute in Hl. rewrite Hh.
      rewrite !lookup_insert_ne by lia. apply lookup_empty.
    - intros p Hp. vm_compute in Hp. inversion Hp; subst. split.
      + vm_compute. repeat constructor; set_solver.
      + intros l Hl. vm_compute in Hl. rewrite Hh.
        destruct Hl as [<-|[<-|[]]]; eexists; reflexivity. }
  split; [exact Hi|]. split; [vm_compute; reflexivity|]. split; [vm_compute; reflexivity|].
  apply (list_devices_tags_cached_snapshot sample_validate _
           (mkUserProfile "user-id" "test@example.com"
              [mkBuilding "building-id" "Test Building" "UTC" [0%nat] [1%nat]]) Hi);
    vm_compute; reflexivity.
Defined.

(* ================================================================== *)
(** * Further properties of the code *)

(** ** Sessions: only [close] closes one *)

Create HintDb closes.

Lemma closes_ret {A} (a : A) : closes_nothing (ret a).
Proof. intros st. reflexivity. Qed.
Lemma closes_raise {A} e : closes_nothing (A:=A) (raise e).
Proof. intros st. reflexivity. Qed.
Lemma closes_bind {A B} (m : M A) (k : A -> M B) :
  closes_nothing m -> (forall a, closes_nothing (k a)) -> closes_nothing (bind m k).
Proof.
  intros Hm Hk st. unfold bind. specialize (Hm st).
  destruct (m st) as [[a|e] s1]; simpl in *; [rewrite Hk|]; exact Hm.
Qed.
Lemma closes_get_client : closes_nothing get_client.
Proof. intros st. reflexivity. Qed.
Lemma closes_datetime_now : closes_nothing datetime_now.
Proof. intros st. reflexivity. Qed.
Lemma closes_modify_client f : closes_nothing (modify_client f).
Proof. intros st. reflexivity. Qed.
Lemma closes_modify_world f :
  (forall w, closed_sessions (f w) = closed_sessions w) -> closes_nothing (modify_world f).
Proof. intros Hf st. apply Hf. Qed.
Lemma closes_http_request m p j : closes_nothing (http_request m p j).
Proof. intros st. unfold http_request. destruct (script (wd st)); reflexivity. Qed.
Lemma closes_raise_for_status r : closes_nothing (raise_for_status r).
Proof. unfold raise_for_status. destruct (_ <? _)%Z; auto using closes_ret, closes_raise. Qed.
Lemma closes_alloc d : closes_nothing (alloc d).
Proof. intros st. reflexivity. Qed.
Lemma closes_response_json r : closes_nothing (response_json r).
Proof. intros st. reflexivity. Qed.
Lemma closes_browser_step o : closes_nothing (browser_step (S:=St) o).
Proof. destruct o; [apply closes_raise|apply closes_ret]. Qed.
Lemma closes_try_finally {A} (m : M A) (k : M unit) :
  closes_nothing m -> closes_nothing k -> closes_nothing (try_finally m k).
Proof.
  intros Hm Hk st. unfold try_finally. specialize (Hm st).
  destruct (m st) as [r s1]. specialize (Hk s1).
  destruct (k s1) as [[u|e] s2]; cbn in *; congruence.
Qed.

#[local] Hint Resolve closes_ret closes_raise closes_get_client closes_datetime_now
  closes_modify_client closes_http_request closes_raise_for_status closes_alloc
  closes_response_json closes_browser_step : closes.

Ltac closes_tac :=
  repeat first
    [ apply closes_bind; [| intros ?; cbv beta]
    | apply closes_try_finally
    | apply closes_modify_world; intros ?;
      repeat match goal with |- context [match ?x with _ => _ end] => destruct x end;
      reflexivity
    | match goal with
      | |- closes_nothing (if ?b then _ else _) => destruct b
      | |- closes_nothing (match ?x with _ => _ end) => destruct x
      end
    | solve [eauto with closes] ].

Lemma closes_alloc_units ds : closes_nothing (alloc_units ds).
Proof. induction ds; simpl; closes_tac. Qed.
#[local] Hint Resolve closes_alloc_units : closes.
Lemma closes_alloc_buildings bs : closes_nothing (alloc_buildings bs).
Proof. induction bs; simpl; [closes_tac|]. unfold alloc_building. closes_tac. Qed.
#[local] Hint Resolve closes_alloc_buildings : closes.
Lemma closes_fetch_context mv : closes_nothing (Client.fetch_context mv).
Proof. unfold Client.fetch_context, alloc_profile. closes_tac. Qed.
#[local] Hint Resolve closes_fetch_context : closes.
Lemma closes_refresh mv : closes_nothing (Client.refresh_if_needed mv).
Proof. unfold Client.refresh_if_needed. closes_tac. Qed.
#[local] Hint Resolve closes_refresh : closes.
Lemma closes_tag_units ty us ds : closes_nothing (Client.tag_units ty us ds).
Proof. revert ds; induction us; intros; simpl; unfold Client.tag_unit; closes_tac. Qed.
#[local] Hint Resolve closes_tag_units : closes.
Lemma closes_walk_buildings bs ds : closes_nothing (Client.walk_buildings bs ds).
Proof. revert ds; induction bs; intros; simpl; closes_tac. Qed.
#[local] Hint Resolve closes_walk_buildings : closes.
Lemma closes_update_cookies ju cs : closes_nothing (Client.update_cookies ju cs).
Proof.
  induction cs as [|c cs IH]; simpl; [closes_tac|].
  apply closes_bind; [|intros _; exact IH].
  destruct (cookie_name c), (cookie_value c); try apply closes_ret;
    intros st; cbn; (destruct (ju _ _ _ _); reflexivity).
Qed.
#[local] Hint Resolve closes_update_cookies : closes.
Lemma closes_login mv e p run : closes_nothing (Client.login mv e p run).
Proof. unfold Client.login. closes_tac. Qed.
Lemma closes_list_devices mv : closes_nothing (Client.list_devices mv).
Proof. unfold Client.list_devices, Client.collect_devices. closes_tac. Qed.
Lemma closes_get_device_state mv i : closes_nothing (Client.get_device_state mv i).
Proof. unfold Client.get_device_state. closes_tac. Qed.
Lemma closes_set_device_state i t j : closes_nothing (Client.set_device_state i t j).
Proof. unfold Client.set_device_state. closes_tac. Qed.
#[local] Hint Resolve closes_login closes_list_devices closes_get_device_state
  closes_set_device_state : closes.

(** The block of [examples/basic_usage.py]: log in, then list the devices. *)
Lemma keeps_login_then_list mv e p run :
  keeps_session (Client.login mv e p run ;;; Client.list_devices mv).
Proof.
  apply keeps_bind; [exact (keeps_run_op mv (Client.OpLogin e p run))|intros _].
  unfold Client.list_devices, Client.collect_devices. keeps_tac.
Qed.

Lemma closes_login_then_list mv e p run :
  closes_nothing (Client.login mv e p run ;;; Client.list_devices mv).
Proof. closes_tac. Qed.

(** X1: [async with MelCloudHomeClient(session) as client: body] returns
    or raises what the block does, and on the way out closes exactly the
    session the client created; a caller's session is never closed. The
    block is any sequence of client calls (they neither close a session nor
    change the client's session). *)
Theorem async_with_closes_own_session : forall A (body : M A) s w,
  keeps_session body -> closes_nothing body ->
  fst (Client.async_with body (Client.init s w)) = fst (body (Client.init s w)) /\
  closed_sessions (wd (snd (Client.async_with body (Client.init s w)))) =
    closed_sessions w ++ match s with None => [next_session w] | Some _ => [] end.
Proof.
  intros A body s w Hk Hc.
  unfold Client.async_with, Client.aenter, Client.aexit, bind, ret, try_finally.
  cbn beta iota.
  destruct (Hk (Client.init s w)) as [Hs Hm]. specialize (Hc (Client.init s w)).
  destruct (body (Client.init s w)) as [r s1]. cbn in Hs, Hm, Hc.
  rewrite close_eq. destruct s as [h|]; cbn in *.
  - rewrite Hm. cbn. split; [reflexivity|]. rewrite Hc, app_nil_r. reflexivity.
  - rewrite Hm. cbn. split; [reflexivity|]. rewrite Hc, Hs. reflexivity.
Qed.

Lemma async_with_closes_own_session_witness :
  fst (Client.async_with
         (Client.login sample_validate "test@example.com" "password123" page_run_ok ;;;
          Client.list_devices sample_validate) (Client.init None login_world)) = Ok [0%nat; 1%nat] /\
  fst (Client.async_with
         (Client.login sample_validate "test@example.com" "password123" page_run_ok ;;;
          Client.list_devices sample_validate) (Client.init None login_world)) =
    fst ((Client.login sample_validate "test@example.com" "password123" page_run_ok ;;;
          Client.list_devices sample_validate) (Client.init None login_world)) /\
  closed_sessions (wd (snd (Client.async_with
         (Client.login sample_validate "test@example.com" "password123" page_run_ok ;;;
          Client.list_devices sample_validate) (Client.init None login_world)))) =
    closed_sessions login_world ++ [next_session login_world].
Proof.
  split; [vm_compute; reflexivity|].
  apply (async_with_closes_own_session _ _ None login_world).
  - apply keeps_login_then_list.
  - apply closes_login_then_list.
Defined.

(** ** Cookies of the client's login *)

Lemma fetch_context_world mv st :
  cookie_jar (wd (snd (Client.fetch_context mv st))) = cookie_jar (wd st) /\
  now (wd (snd (Client.fetch_context mv st))) = now (wd st).
Proof.
  rewrite fetch_context_eq.
  destruct (script (wd st)) as [|r rest]; [split; reflexivity|]. cbv zeta.
  fetch_cases mv r; try (split; reflexivity).
  match goal with |- context [alloc_profile ?wire ?s1] =>
    destruct (alloc_profile_shape wire s1) as (p & st2 & Ha & Hc & Hw); rewrite Ha
  end.
  cbn. rewrite Hw. split; reflexivity.
Qed.

(** X2: once the browser reaches the dashboard and [context.cookies()]
    returns, [login] hands the session's jar, one by one and in order,
    every browser cookie whose name and value are not [None] (a non-string
    value included), stopping at the first one the jar refuses; the jar
    keeps what it took even when [login] then fails. The context fetch,
    the only request [login] sends, goes out only when every cookie was
    taken and [browser.close()] succeeded; a refused cookie's exception is
    what [login] raises, unless leaving [async_playwright()] raises. *)
Theorem client_login_cookies : forall mv e p run st,
  page_steps run = None ->
  wait_for_url run DASHBOARD_URL_PATTERN LOGIN_TIMEOUT_MILLISECONDS = WaitOk ->
  cookies_error run = None ->
  cookie_jar (wd (snd (Client.login mv e p run st))) =
    snd (client_transfer (jar_update run) (context_cookies run) (cookie_jar (wd st))) /\
  log (wd (snd (Client.login mv e p run st))) =
    log (wd st) ++
      match fst (client_transfer (jar_update run) (context_cookies run) (cookie_jar (wd st))),
            close_error run with
      | Ok _, None => [context_request]
      | _, _ => []
      end /\
  (forall x,
     fst (client_transfer (jar_update run) (context_cookies run) (cookie_jar (wd st))) = Err x ->
     stop_error run = None -> fst (Client.login mv e p run st) = Err x).
Proof.
  intros mv e p run st Hp Hw Hc. rewrite client_login_eq. cbv zeta. rewrite Hp, Hw, Hc.
  destruct (fst (client_transfer _ _ _)) as [u|x] eqn:Ht.
  - destruct (close_error run).
    + cbn. split; [reflexivity|]. split; [rewrite app_nil_r; reflexivity|]. discriminate.
    + cbn [snd]. rewrite (proj1 (fetch_context_world _ _)), fetch_context_log.
      split; [reflexivity|]. split; [reflexivity|]. discriminate.
  - cbn. split; [reflexivity|]. split; [rewrite app_nil_r; reflexivity|].
    intros x' Hx Hs. rewrite Hs. exact Hx.
Qed.

Lemma client_login_cookies_witness :
  page_steps page_run_bad_cookie = None /\
  wait_for_url page_run_bad_cookie DASHBOARD_URL_PATTERN LOGIN_TIMEOUT_MILLISECONDS = WaitOk /\
  cookies_error page_run_bad_cookie = None /\
  client_transfer (jar_update page_run_bad_cookie) (context_cookies page_run_bad_cookie) [] =
    (Err (CookieError "Attempt to set a reserved key Path"),
     [("melcloudhome.com"%string, PStr "session", PStr "abc");
      ("melcloudhome.com"%string, PStr "visits", PInt 3)]) /\
  cookie_jar (wd (snd (Client.login sample_validate "test@example.com" "password123"
                         page_run_bad_cookie (Client.init None empty_world)))) =
    [("melcloudhome.com"%string, PStr "session", PStr "abc");
     ("melcloudhome.com"%string, PStr "visits", PInt 3)] /\
  log (wd (snd (Client.login sample_validate "test@example.com" "password123"
                  page_run_bad_cookie (Client.init None empty_world)))) = [] /\
  fst (Client.login sample_validate "test@example.com" "password123"
         page_run_bad_cookie (Client.init None empty_world)) =
    Err (CookieError "Attempt to set a reserved key Path").
Proof.
  assert (Ht : client_transfer (jar_update page_run_bad_cookie)
                 (context_cookies page_run_bad_cookie) [] =
    (Err (CookieError "Attempt to set a reserved key Path"),
     [("melcloudhome.com"%string, PStr "session", PStr "abc");
      ("melcloudhome.com"%string, PStr "visits", PInt 3)])) by (vm_compute; reflexivity).
  destruct (client_login_cookies sample_validate "test@example.com" "password123"
              page_run_bad_cookie (Client.init None empty_world) eq_refl eq_refl eq_refl)
    as (H1 & H2 & H3).
  change (cookie_jar (wd (Client.init None empty_world))) with (@nil (string * pyval * pyval))
    in H1, H2, H3.
  change (log (wd (Client.init None empty_world))) with (@nil Request) in H2.
  rewrite Ht in H1, H2, H3.
  split; [reflexivity|]. split; [reflexivity|]. split; [reflexivity|]. split; [exact Ht|].
  split; [exact H1|]. split; [exact H2|].
  exact (H3 _ eq_refl eq_refl).
Defined.

(** X3: [launch(...)] is outside the [try] of [_perform_browser_login]:
    when it raises, [AuthenticationService.login] raises that error with no
    browser launched and no [browser.close()] call; otherwise exactly one
    browser is launched and [browser.close()] is called exactly once,
    whether the later steps succeed or raise. *)
Theorem auth_login_closes_browser : forall e p run s,
  match Auth.launch_error run with
  | Some m =>
      fst (Auth.login e p run s) = Err (BrowserError m) /\
      Auth.launched (snd (Auth.login e p run s)) = Auth.launched s /\
      Auth.closed (snd (Auth.login e p run s)) = Auth.closed s
  | None =>
      Auth.launched (snd (Auth.login e p run s)) = S (Auth.launched s) /\
      Auth.closed (snd (Auth.login e p run s)) = S (Auth.closed s)
  end.
Proof.
  intros e p run s. rewrite auth_login_eq, perform_browser_login_eq.
  destruct (Auth.launch_error run); cbn; auto.
Qed.

(** X4: [AuthenticationService.login] changes the session's cookie jar
    only by handing it, in order, the page cookies whose name and value are
    both strings, and only once it got past [launch], the steps before the
    wait, the URL check and [page.cookies()]; the jar keeps what it took
    before a cookie it refuses, even when [login] fails or
    [browser.close()] raises. [login] succeeds exactly when all these
    steps, every jar update and [browser.close()] succeed. *)
Theorem auth_login_cookies : forall e p run s,
  Auth.a_jar (snd (Auth.login e p run s)) =
    match Auth.launch_error run, Auth.before_wait run, Auth.cookies_error run with
    | None, None, None =>
        if str_contains "/dashboard" (Auth.current_url run)
        then snd (auth_transfer (Auth.jar_update run) (Auth.page_cookies run) (Auth.a_jar s))
        else Auth.a_jar s
    | _, _, _ => Auth.a_jar s
    end /\
  (fst (Auth.login e p run s) = Ok tt <->
   Auth.launch_error run = None /\ Auth.before_wait run = None /\
   str_contains "/dashboard" (Auth.current_url run) = true /\
   Auth.cookies_error run = None /\
   fst (auth_transfer (Auth.jar_update run) (Auth.page_cookies run) (Auth.a_jar s)) = Ok tt /\
   Auth.close_error run = None).
Proof.
  intros e p run s. rewrite auth_login_eq, perform_browser_login_eq.
  destruct (Auth.launch_error run), (Auth.before_wait run), (Auth.cookies_error run),
    (str_contains "/dashboard" (Auth.current_url run)), (Auth.close_error run); cbn;
    (split; [reflexivity|]);
    try (split; [discriminate|intros; intuition discriminate]).
  split; [intros H; repeat split; auto|intros (_ & _ & _ & _ & H & _); exact H].
Qed.

(** ** Writes *)

(** X5: a write with a non-empty device type sends exactly one request,
    [PUT {device_type}/{device_id}] with the payload as JSON. For a status
    below 400 it clears [last_updated] and then gives what
    [response.json()] gives: the decoded body, or the decoding error, which
    it then raises with [last_updated] already cleared. For any other
    status it raises [ClientResponseError] (or the transport error) and
    leaves [last_updated] alone. It never touches the device objects or the
    cached profile. *)
Theorem set_device_state_effects : forall device_id device_type state_data st,
  device_type <> ""%string ->
  log (wd (snd (Client.set_device_state device_id device_type state_data st))) =
    log (wd st) ++ [mkRequest "PUT" (device_type ++ "/" ++ device_id) (Some state_data)] /\
  heap (wd (snd (Client.set_device_state device_id device_type state_data st))) = heap (wd st) /\
  user_profile (cl (snd (Client.set_device_state device_id device_type state_data st))) =
    user_profile (cl st) /\
  fst (Client.set_device_state device_id device_type state_data st) =
    match script (wd st) with
    | [] => Err ClientConnectionError
    | r :: _ => if (status r <? 400)%Z then decode_body r else Err (ClientResponseError (status r))
    end /\
  last_updated (cl (snd (Client.set_device_state device_id device_type state_data st))) =
    match script (wd st) with
    | r :: _ => if (status r <? 400)%Z then None else last_updated (cl st)
    | [] => last_updated (cl st)
    end.
Proof.
  intros device_id device_type state_data st Hne.
  unfold Client.set_device_state.
  rewrite (proj2 (String.eqb_neq _ _) Hne).
  cbv [bind http_request raise_for_status modify_client response_json ret raise].
  destruct (script (wd st)) as [|r rest]; [repeat split; reflexivity|].
  destruct (status r <? 400)%Z; [destruct (decode_body r)|]; repeat split; reflexivity.
Qed.

Lemma set_device_state_effects_witness :
  "atwunit"%string <> ""%string /\
  fst (Client.set_device_state "atw-device-id" "atwunit" write_payload html_state) =
    Err (ContentTypeError 200) /\
  last_updated (cl (snd (Client.set_device_state "atw-device-id" "atwunit" write_payload
                           html_state))) = None.
Proof.
  split; [discriminate|].
  destruct (set_device_state_effects "atw-device-id" "atwunit" write_payload html_state
              ltac:(discriminate)) as (_ & _ & _ & H4 & H5).
  rewrite H5, H4. split; reflexivity.
Defined.

(** ** The allocation invariant holds in every reachable state *)

Lemma inv_transfer st st' :
  user_profile (cl st') = user_profile (cl st) ->
  next_loc (wd st') = next_loc (wd st) ->
  (forall k, heap (wd st) !! k = None <-> heap (wd st') !! k = None) ->
  client_inv st -> client_inv st'.
Proof.
  intros Hp Hn Hh [Hf Hok]. split.
  - intros l Hl. apply Hh, Hf. lia.
  - intros p Hp'. rewrite Hp in Hp'. destruct (Hok p Hp') as [Hnd Hl].
    split; [exact Hnd|]. intros l Hin. destruct (Hl l Hin) as [d Hd].
    destruct (heap (wd st') !! l) eqn:E; [eauto|].
    apply Hh in E. congruence.
Qed.

Lemma tag_pure_none ty h l k : tag_pure ty h l !! k = None <-> h !! k = None.
Proof. rewrite tag_pure_lookup. case_decide; [destruct (h !! k)|]; cbn; split; intros; congruence. Qed.

Lemma tag_list_none ty ls h k : tag_list ty ls h !! k = None <-> h !! k = None.
Proof.
  revert h; induction ls as [|l ls IH]; intros h; cbn [tag_list]; [reflexivity|].
  rewrite IH. apply tag_pure_none.
Qed.

Lemma tag_buildings_none bs h k : tag_buildings bs h !! k = None <-> h !! k = None.
Proof.
  revert h; induction bs as [|b bs IH]; intros h; cbn [tag_buildings]; [reflexivity|].
  rewrite IH, !tag_list_none. reflexivity.
Qed.

Lemma fetch_context_err_world mv st e st' :
  Client.fetch_context mv st = (Err e, st') ->
  cl st' = cl st /\ heap (wd st') = heap (wd st) /\ next_loc (wd st') = next_loc (wd st) /\
  now (wd st') = now (wd st).
Proof.
  rewrite fetch_context_eq.
  destruct (script (wd st)) as [|r rest].
  { intros H; inversion H; subst; auto. }
  cbv zeta. fetch_cases mv r; try (intros H; inversion H; subst; auto; fail).
  match goal with |- context [alloc_profile ?wire ?s1] =>
    destruct (alloc_profile_shape wire s1) as (p & st2 & Ha & Hc & Hw); rewrite Ha
  end. discriminate.
Qed.

Lemma fetch_context_inv_any mv st :
  client_inv st -> client_inv (snd (Client.fetch_context mv st)).
Proof.
  intros Hi. destruct (Client.fetch_context mv st) as [[u|e] st'] eqn:E.
  - exact (fetch_context_inv _ _ _ _ Hi E).
  - destruct (fetch_context_err_world _ _ _ _ E) as (Hc & Hh & Hn & _).
    apply (inv_transfer st); cbn; [rewrite Hc; reflexivity|exact Hn|rewrite Hh; reflexivity|exact Hi].
Qed.

Lemma refresh_inv_any mv st :
  client_inv st -> client_inv (snd (Client.refresh_if_needed mv st)).
Proof.
  intros Hi. rewrite refresh_eq.
  destruct (Client.needs_refresh (cl st) (now (wd st))); [apply fetch_context_inv_any|]; exact Hi.
Qed.

Lemma list_devices_inv mv st :
  client_inv st -> client_inv (snd (Client.list_devices mv st)).
Proof.
  intros Hi. pose proof (refresh_inv_any mv st Hi) as Hi1.
  unfold Client.list_devices, bind.
  destruct (Client.refresh_if_needed mv st) as [[u|e] s1]; [|exact Hi1].
  rewrite collect_devices_eq. destruct (user_profile (cl s1)) as [p|]; [|exact Hi1].
  apply (inv_transfer s1); [reflexivity|reflexivity| |exact Hi1].
  intros k. cbn. symmetry. apply tag_buildings_none.
Qed.

Lemma get_device_state_inv mv i st :
  client_inv st -> client_inv (snd (Client.get_device_state mv i st)).
Proof.
  intros Hi. pose proof (refresh_inv_any mv st Hi) as Hi1.
  rewrite get_device_state_eq.
  destruct (Client.refresh_if_needed mv st) as [[u|e] s1]; [|exact Hi1].
  destruct (user_profile (cl s1)); [|exact Hi1].
  destruct (script (wd s1)); exact Hi1.
Qed.

Lemma set_device_state_inv i t j st :
  client_inv st -> client_inv (snd (Client.set_device_state i t j st)).
Proof.
  intros Hi. unfold Client.set_device_state.
  destruct (String.eqb t ""%string); [exact Hi|].
  cbv [bind http_request raise_for_status modify_client response_json ret raise].
  destruct (script (wd st)); [exact Hi|].
  destruct (_ <? 400)%Z; exact Hi.
Qed.

Lemma login_inv mv e p run st :
  client_inv st -> client_inv (snd (Client.login mv e p run st)).
Proof.
  intros Hi. rewrite client_login_eq. cbv zeta.
  assert (Hi1 : client_inv (mkSt (cl st) (with_jar (snd (client_transfer (jar_update run)
                  (context_cookies run) (cookie_jar (wd st)))) (wd st)))).
  { apply (inv_transfer st); [reflexivity|reflexivity| |exact Hi]. intros k; reflexivity. }
  destruct (page_steps run); [exact Hi|].
  destruct (wait_for_url run DASHBOARD_URL_PATTERN LOGIN_TIMEOUT_MILLISECONDS); [|exact Hi].
  destruct (cookies_error run); [exact Hi|].
  destruct (fst (client_transfer _ _ _)); [|exact Hi1].
  destruct (close_error run); [exact Hi1|apply fetch_context_inv_any, Hi1].
Qed.

Lemma run_op_inv mv o st : client_inv st -> client_inv (snd (Client.run_op mv o st)).
Proof.
  intros Hi. destruct o as [e p run| |i|i t j|dt]; cbn [Client.run_op].
  - apply login_inv, Hi.
  - pose proof (list_devices_inv mv st Hi). unfold bind.
    destruct (Client.list_devices mv st) as [[]]; assumption.
  - pose proof (get_device_state_inv mv i st Hi). unfold bind.
    destruct (Client.get_device_state mv i st) as [[]]; assumption.
  - pose proof (set_device_state_inv i t j st Hi). unfold bind.
    destruct (Client.set_device_state i t j st) as [[]]; assumption.
  - exact Hi.
Qed.

Lemma run_ops_inv mv s w os :
  heap_fresh w -> client_inv (Client.run_ops mv os (Client.init s w)).
Proof.
  intros Hf.
  assert (H0 : client_inv (Client.init s w)).
  { destruct s; (split; [exact Hf|intros p Hp; discriminate]). }
  generalize (Client.init s w) H0. clear H0.
  induction os as [|o os IH]; intros st Hi; cbn [Client.run_ops]; [exact Hi|].
  apply IH, run_op_inv, Hi.
Qed.

Lemma in_profile_units_inv (bs : list (Building nat)) l :
  In l (concat (map building_units bs)) ->
  exists b, In b bs /\ (In l (air_to_air_units b) \/ In l (air_to_water_units b)).
Proof.
  induction bs as [|b bs IH]; cbn; [intros []|].
  intros H. apply in_app_or in H as [H|H].
  - exists b. split; [left; reflexivity|]. apply in_app_or, H.
  - destruct (IH H) as (b' & Hb & Hl). exists b'. split; [right; exact Hb|exact Hl].
Qed.

(** Under the invariant, a successful listing gives distinct references to
    live objects, each tagged with one of the two device types. *)
Lemma list_devices_tagged mv st devs st' :
  client_inv st -> Client.list_devices mv st = (Ok devs, st') ->
  NoDup devs /\
  forall l, In l devs -> exists d, heap (wd st') !! l = Some d /\
    (device_type d = Some DEVICE_TYPE_AIR_TO_AIR \/ device_type d = Some DEVICE_TYPE_AIR_TO_WATER).
Proof.
  intros Hi H. unfold Client.list_devices in H.
  apply bind_inv in H as [(u & s1 & Hr & Hc) | (e & _ & Hr)]; [|discriminate].
  pose proof (refresh_inv _ _ _ _ Hi Hr) as [_ Hok].
  destruct (refresh_ok_profile _ _ _ _ Hr) as [p Hp].
  destruct (Hok p Hp) as [Hnd Hlive].
  rewrite collect_devices_eq, Hp in Hc. inversion Hc; subst; clear Hc.
  split; [exact Hnd|]. intros l Hl.
  destruct (Hlive l Hl) as [d Hd].
  destruct (in_profile_units_inv _ _ Hl) as (b & Hb & [Ha|Hw]); cbn.
  - rewrite (proj1 (tag_buildings_in _ _ b l Hnd Hb) Ha), Hd.
    eexists; split; [reflexivity|left; apply set_device_type_type].
  - rewrite (proj2 (tag_buildings_in _ _ b l Hnd Hb) Hw), Hd.
    eexists; split; [reflexivity|right; apply set_device_type_type].
Qed.

(** X9: for any sequence of public calls on a fresh client (failed calls
    included), a later successful [list_devices] returns distinct device
    objects, each live and tagged "ataunit" or "atwunit". *)
Theorem reachable_list_devices_tagged : forall mv s w os devs st',
  heap_fresh w ->
  Client.list_devices mv (Client.run_ops mv os (Client.init s w)) = (Ok devs, st') ->
  NoDup devs /\
  forall l, In l devs -> exists d, heap (wd st') !! l = Some d /\
    (device_type d = Some DEVICE_TYPE_AIR_TO_AIR \/ device_type d = Some DEVICE_TYPE_AIR_TO_WATER).
Proof.
  intros mv s w os devs st' Hf H.
  exact (list_devices_tagged _ _ _ _ (run_ops_inv mv s w os Hf) H).
Qed.

Lemma reachable_list_devices_tagged_witness :
  heap_fresh refetch_world /\
  Client.list_devices sample_validate
    (Client.run_ops sample_validate
       [Client.OpLogin "test@example.com" "password123" page_run_ok;
        Client.OpAdvanceClock (cache_ttl + 1)] (Client.init None refetch_world)) =
    (Ok [2%nat; 3%nat],
     snd (Client.list_devices sample_validate
            (Client.run_ops sample_validate
               [Client.OpLogin "test@example.com" "password123" page_run_ok;
                Client.OpAdvanceClock (cache_ttl + 1)] (Client.init None refetch_world)))) /\
  NoDup [2%nat; 3%nat] /\
  forall l, In l [2%nat; 3%nat] -> exists d,
    heap (wd (snd (Client.list_devices sample_validate
            (Client.run_ops sample_validate
               [Client.OpLogin "test@example.com" "password123" page_run_ok;
                Client.OpAdvanceClock (cache_ttl + 1)] (Client.init None refetch_world))))) !! l
      = Some d /\
    (device_type d = Some DEVICE_TYPE_AIR_TO_AIR \/ device_type d = Some DEVICE_TYPE_AIR_TO_WATER).
Proof.
  assert (Hf : heap_fresh refetch_world) by (intros l _; apply lookup_empty).
  split; [exact Hf|]. split; [vm_compute; reflexivity|].
  apply (reachable_list_devices_tagged sample_validate None refetch_world
           [Client.OpLogin "test@example.com" "password123" page_run_ok;
            Client.OpAdvanceClock (cache_ttl + 1)] [2%nat; 3%nat] _ Hf).
  vm_compute. reflexivity.
Defined.

Lemma set_device_state_put device_id device_type state_data st :
  device_type <> ""%string ->
  fst (Client.set_device_state device_id device_type state_data st) <>
    Err (ValueError Client.no_type_msg) /\
  log (wd (snd (Client.set_device_state device_id device_type state_data st))) =
    log (wd st) ++ [mkRequest "PUT" (device_type ++ "/" ++ device_id) (Some state_data)].
Proof.
  intros Hne. unfold Client.set_device_state.
  rewrite (proj2 (String.eqb_neq _ _) Hne).
  cbv [bind http_request raise_for_status modify_client response_json ret raise].
  destruct (script (wd st)) as [|r rest]; [split; [discriminate|reflexivity]|].
  destruct (status r <? 400)%Z; [|split; [discriminate|reflexivity]].
  destruct (decode_body r) as [j|e] eqn:Hd; (split; [|reflexivity]); [discriminate|].
  cbn. intros He. inversion He; subst.
  destruct (decode_body_err r _ Hd) as [H|[H|H]]; discriminate.
Qed.

(** X10: the control flow of [examples/control_atw.py]: a device obtained
    from [list_devices] (after any earlier calls on a fresh client) carries
    a device type, and writing to it with [set_device_state(device.id,
    device.device_type, ...)] never fails for a missing type: it sends
    [PUT {device_type}/{device.id}] with the payload. *)
Theorem listed_device_write_sends_put : forall mv s w os devs st',
  heap_fresh w ->
  Client.list_devices mv (Client.run_ops mv os (Client.init s w)) = (Ok devs, st') ->
  forall l, In l devs -> exists d ty,
    heap (wd st') !! l = Some d /\ device_type d = Some ty /\
    forall state_data st0,
      fst (Client.set_device_state (id d) ty state_data st0) <>
        Err (ValueError Client.no_type_msg) /\
      log (wd (snd (Client.set_device_state (id d) ty state_data st0))) =
        log (wd st0) ++ [mkRequest "PUT" (ty ++ "/" ++ id d) (Some state_data)].
Proof.
  intros mv s w os devs st' Hf H l Hl.
  destruct (list_devices_tagged _ _ _ _ (run_ops_inv mv s w os Hf) H) as [_ Ht].
  destruct (Ht l Hl) as (d & Hd & Hty).
  exists d, (match device_type d with Some t => t | None => ""%string end).
  split; [exact Hd|].
  destruct Hty as [Hty|Hty]; rewrite Hty; (split; [reflexivity|]);
    intros j st0; apply set_device_state_put; discriminate.
Qed.

Lemma listed_device_write_sends_put_witness :
  heap_fresh login_world /\
  exists d ty,
    heap (wd (snd (Client.list_devices sample_validate
       (Client.run_ops sample_validate
          [Client.OpLogin "test@example.com" "password123" page_run_ok]
          (Client.init None login_world))))) !! 1%nat = Some d /\
    device_type d = Some ty /\
    forall state_data st0,
      fst (Client.set_device_state (id d) ty state_data st0) <>
        Err (ValueError Client.no_type_msg) /\
      log (wd (snd (Client.set_device_state (id d) ty state_data st0))) =
        log (wd st0) ++ [mkRequest "PUT" (ty ++ "/" ++ id d) (Some state_data)].
Proof.
  assert (Hf : heap_fresh login_world) by (intros l _; apply lookup_empty).
  split; [exact Hf|].
  apply (listed_device_write_sends_put sample_validate None login_world
           [Client.OpLogin "test@example.com" "password123" page_run_ok] [0%nat; 1%nat] _ Hf).
  - vm_compute. reflexivity.
  - right; left; reflexivity.
Defined.

(** ** The cache window of the read path *)

Lemma list_devices_log mv st :
  log (wd (snd (Client.list_devices mv st))) =
    log (wd (snd (Client.refresh_if_needed mv st))).
Proof.
  unfold Client.list_devices, bind.
  destruct (Client.refresh_if_needed mv st) as [[u|e] s1]; [|reflexivity].
  rewrite collect_devices_eq. destruct (user_profile (cl s1)); reflexivity.
Qed.

(** X6: [list_devices] sends at most one request, the context fetch, and
    sends it exactly when no profile is cached or the last fetch is
    strictly more than five minutes old; a cache exactly five minutes old,
    or one whose [last_updated] is [None], is used without a request. *)
Theorem list_devices_request_window : forall mv st,
  ((user_profile (cl st) = None \/
    exists lu, last_updated (cl st) = Some lu /\ now (wd st) - lu > cache_ttl) ->
   log (wd (snd (Client.list_devices mv st))) = log (wd st) ++ [context_request]) /\
  (user_profile (cl st) <> None ->
   (forall lu, last_updated (cl st) = Some lu -> now (wd st) - lu <= cache_ttl) ->
   log (wd (snd (Client.list_devices mv st))) = log (wd st)).
Proof.
  intros mv st. rewrite list_devices_log, refresh_eq. unfold Client.needs_refresh. split.
  - intros [Hp | (lu & Hl & Hgt)].
    + rewrite Hp. apply fetch_context_log.
    + destruct (user_profile (cl st)); [|apply fetch_context_log].
      rewrite Hl. replace (now (wd st) - lu >? cache_ttl) with true
        by (symmetry; apply Z.gtb_lt; lia).
      apply fetch_context_log.
  - intros Hp Hle. destruct (user_profile (cl st)); [|congruence].
    destruct (last_updated (cl st)) as [lu|]; [|reflexivity].
    specialize (Hle lu eq_refl).
    replace (now (wd st) - lu >? cache_ttl) with false
      by (symmetry; rewrite Z.gtb_ltb; apply Z.ltb_ge; lia).
    reflexivity.
Qed.

(** A client whose profile was fetched exactly five minutes ago. *)
Lemma list_devices_request_window_witness :
  let edge := mkSt (cl stale_state)
                   (mkWorld ∅ 0 cache_ttl [] [] [] 1 []) in
  (exists lu, last_updated (cl stale_state) = Some lu /\ now (wd stale_state) - lu > cache_ttl) /\
  log (wd (snd (Client.list_devices sample_validate stale_state))) =
    log (wd stale_state) ++ [context_request] /\
  user_profile (cl edge) <> None /\
  (forall lu, last_updated (cl edge) = Some lu -> now (wd edge) - lu <= cache_ttl) /\
  log (wd (snd (Client.list_devices sample_validate edge))) = log (wd edge).
Proof.
  cbv zeta.
  assert (H1 : exists lu, last_updated (cl stale_state) = Some lu /\
                          now (wd stale_state) - lu > cache_ttl).
  { exists 0. split; [reflexivity|vm_compute; reflexivity]. }
  assert (H2 : forall lu, last_updated (cl (mkSt (cl stale_state)
                 (mkWorld ∅ 0 cache_ttl [] [] [] 1 []))) = Some lu ->
               now (wd (mkSt (cl stale_state) (mkWorld ∅ 0 cache_ttl [] [] [] 1 []))) - lu
                 <= cache_ttl).
  { intros lu Hl. vm_compute in Hl. inversion Hl; subst. cbn. lia. }
  split; [exact H1|]. split; [apply (proj1 (list_devices_request_window sample_validate _)); right; exact H1|].
  split; [discriminate|]. split; [exact H2|].
  apply (proj2 (list_devices_request_window sample_validate _)); [discriminate|exact H2].
Defined.

(** X7: when [list_devices] fails, the failure is the context fetch's and
    nothing of the client moved: the same profile and [last_updated] stay
    cached, no object was created, and the cache still counts as stale, so
    the next read fetches again. *)
Theorem failed_list_devices_keeps_client : forall mv st e st1,
  Client.list_devices mv st = (Err e, st1) ->
  cl st1 = cl st /\ heap (wd st1) = heap (wd st) /\ now (wd st1) = now (wd st) /\
  log (wd st1) = log (wd st) ++ [context_request] /\
  Client.needs_refresh (cl st1) (now (wd st1)) = true.
Proof.
  intros mv st e st1 H. pose proof (list_devices_log mv st) as Hlog. rewrite H in Hlog.
  unfold Client.list_devices in H.
  apply bind_inv in H as [(u & s1 & Hr & Hc) | (e' & Hr & _)].
  - rewrite collect_devices_eq in Hc. destruct (user_profile (cl s1)); discriminate.
  - rewrite refresh_eq in Hr, Hlog.
    destruct (Client.needs_refresh (cl st) (now (wd st))) eqn:Hn; [|discriminate].
    rewrite fetch_context_log in Hlog.
    destruct (fetch_context_err_world _ _ _ _ Hr) as (Hc & Hh & _ & Ht).
    rewrite Hc, Ht. auto.
Qed.

Lemma failed_list_devices_keeps_client_witness :
  Client.list_devices sample_validate stale_state =
    (Err (ClientResponseError 401), snd (Client.list_devices sample_validate stale_state)) /\
  Client.needs_refresh (cl (snd (Client.list_devices sample_validate stale_state)))
    (now (wd (snd (Client.list_devices sample_validate stale_state)))) = true.
Proof.
  assert (H : Client.list_devices sample_validate stale_state =
    (Err (ClientResponseError 401), snd (Client.list_devices sample_validate stale_state)))
    by (vm_compute; reflexivity).
  split; [exact H|].
  exact (proj2 (proj2 (proj2 (proj2 (failed_list_devices_keeps_client _ _ _ _ H))))).
Defined.

(** ** A refresh builds a new object graph *)

Lemma fetch_context_ok_alloc mv st u st' :
  heap_fresh (wd st) -> Client.fetch_context mv st = (Ok u, st') ->
  exists p', user_profile (cl st') = Some p' /\ alloc_range st st' (profile_units p').
Proof.
  intros Hf. rewrite fetch_context_eq.
  destruct (script (wd st)) as [|r rest]; [discriminate|]. cbv zeta.
  fetch_cases mv r; try discriminate.
  match goal with |- context [alloc_profile ?wire ?s1] =>
    destruct (alloc_profile_spec wire s1 Hf) as (p & st2 & Ha & Hc & Hw & Hr); rewrite Ha
  end.
  intros H. inversion H; subst; clear H.
  exists p. split; [reflexivity|]. exact Hr.
Qed.

(** X8: when [list_devices] has to re-fetch a cached profile, it returns
    new device objects, none of them an object of the previous snapshot,
    and it leaves every object of the previous snapshot (tags included) as
    it was: devices a caller kept from an earlier listing go stale rather
    than being updated. *)
Theorem refresh_returns_new_objects : forall mv st p devs st',
  client_inv st ->
  user_profile (cl st) = Some p ->
  Client.needs_refresh (cl st) (now (wd st)) = true ->
  Client.list_devices mv st = (Ok devs, st') ->
  (forall l, In l devs -> ~ In l (profile_units p)) /\
  (forall l, In l (profile_units p) -> heap (wd st') !! l = heap (wd st) !! l).
Proof.
  intros mv st p devs st' [Hf Hok] Hp Hn H.
  destruct (Hok p Hp) as [_ Hlive].
  assert (Hold : forall l, In l (profile_units p) -> (l < next_loc (wd st))%nat).
  { intros l Hl. destruct (Hlive l Hl) as [d Hd].
    destruct (Nat.lt_ge_cases l (next_loc (wd st))) as [?|Hge]; [assumption|].
    rewrite (Hf l Hge) in Hd. discriminate. }
  unfold Client.list_devices in H.
  apply bind_inv in H as [(u & s1 & Hr & Hc) | (e & _ & Hr)]; [|discriminate].
  rewrite refresh_eq, Hn in Hr.
  destruct (fetch_context_ok_alloc _ _ _ _ Hf Hr) as (p' & Hp' & _ & _ & Hnew & Hkeep & _).
  rewrite collect_devices_eq, Hp' in Hc. inversion Hc; subst; clear Hc.
  split.
  - intros l Hl Hin. destruct (Hnew l Hl) as [[Hge _] _].
    specialize (Hold l Hin). lia.
  - intros l Hin. cbn. rewrite tag_buildings_notin.
    + apply Hkeep, Hold, Hin.
    + intros Hl. destruct (Hnew l Hl) as [[Hge _] _]. specialize (Hold l Hin). lia.
Qed.

Lemma refresh_returns_new_objects_witness :
  let st1 := Client.run_ops sample_validate
               [Client.OpLogin "test@example.com" "password123" page_run_ok;
                Client.OpListDevices; Client.OpAdvanceClock (cache_ttl + 1)]
               (Client.init None refetch_world) in
  client_inv st1 /\
  user_profile (cl st1) =
    Some (mkUserProfile "user-id" "test@example.com"
            [mkBuilding "building-id" "Test Building" "UTC" [0%nat] [1%nat]]) /\
  Client.needs_refresh (cl st1) (now (wd st1)) = true /\
  Client.list_devices sample_validate st1 =
    (Ok [2%nat; 3%nat], snd (Client.list_devices sample_validate st1)) /\
  (forall l, In l [2%nat; 3%nat] -> ~ In l [0%nat; 1%nat]) /\
  (forall l, In l [0%nat; 1%nat] ->
     heap (wd (snd (Client.list_devices sample_validate st1))) !! l = heap (wd st1) !! l).
Proof.
  cbv zeta.
  assert (Hi := run_ops_inv sample_validate None refetch_world
                  [Client.OpLogin "test@example.com" "password123" page_run_ok;
                   Client.OpListDevices; Client.OpAdvanceClock (cache_ttl + 1)]
                  (fun l _ => lookup_empty l)).
  assert (Hl : Client.list_devices sample_validate
      (Client.run_ops sample_validate
         [Client.OpLogin "test@example.com" "password123" page_run_ok;
          Client.OpListDevices; Client.OpAdvanceClock (cache_ttl + 1)]
         (Client.init None refetch_world)) =
    (Ok [2%nat; 3%nat], snd (Client.list_devices sample_validate
      (Client.run_ops sample_validate
         [Client.OpLogin "test@example.com" "password123" page_run_ok;
          Client.OpListDevices; Client.OpAdvanceClock (cache_ttl + 1)]
         (Client.init None refetch_world))))) by (vm_compute; reflexivity).
  split; [exact Hi|]. split; [vm_compute; reflexivity|]. split; [vm_compute; reflexivity|].
  split; [exact Hl|].
  apply (refresh_returns_new_objects sample_validate _
           (mkUserProfile "user-id" "test@example.com"
              [mkBuilding "building-id" "Test Building" "UTC" [0%nat] [1%nat]])
           _ _ Hi); [vm_compute; reflexivity|vm_compute; reflexivity|exact Hl].
Defined.
